(** * ACEest Fitness: a shallow embedding of [ACEest_Fitness.py]

    The service keeps one module-level list, [WORKOUTS], and exposes four
    Flask views over it.  Handlers are embedded as computations in a small
    state-and-exception monad over that list; the Python built-ins the
    handlers call ([int], [str], truth testing, [dict.get], subscripting)
    are embedded in module [Py].

    Modelling conventions.
    - A Python [str] is a Rocq [string] read as a sequence of code points
      below 256.
    - A Python [float] is carried by its [repr] text (the text [str]
      returns for it); no floating-point arithmetic is performed by the
      program.
    - A response is the pair of the Python object handed to Flask (a [str]
      or the argument of [jsonify]) and the HTTP status code.
    - [request.get_json()] is the input [data] of [add_workout]. *)

From Stdlib Require Import ZArith List String Ascii Bool Lia.
From Stdlib Require Import DecimalString DecimalPos DecimalN.
Import ListNotations.

Local Open Scope string_scope.
Local Open Scope Z_scope.

(** ** Python objects, exceptions and outcomes *)

(** The exception classes that the program's operations can raise. *)
Inductive exn : Set := ValueError | AttributeError | KeyError | TypeError.

Definition exn_eqb (a b : exn) : bool :=
  match a, b with
  | ValueError, ValueError | AttributeError, AttributeError
  | KeyError, KeyError | TypeError, TypeError => true
  | _, _ => false
  end.

(** Outcome of evaluating an expression: a value or a raised exception. *)
Inductive result (A : Type) : Type :=
| Ok (a : A)
| Raise (e : exn).
Arguments Ok {A} a.
Arguments Raise {A} e.

(** Objects: what [json.loads] produces and what the handlers build.
    A [dict] keeps its items in insertion order; all keys are strings, and
    a key is bound once (a lookup takes the first binding). *)
#[warnings="-register-all"]
Inductive value : Type :=
| VNone
| VBool (b : bool)
| VInt (z : Z)
| VFloat (repr : string)
| VStr (s : string)
| VList (items : list value)
| VDict (fields : list (string * value)).

(** ** Python built-ins *)

Module Py.

(** *** Truth value testing ([not x], [if x]) *)

Definition truthy (v : value) : bool :=
  match v with
  | VNone => false
  | VBool b => b
  | VInt z => negb (z =? 0)
  | VFloat r => negb (String.eqb r "0.0" || String.eqb r "-0.0")
  | VStr s => negb (String.eqb s "")
  | VList l => match l with [] => false | _ => true end
  | VDict d => match d with [] => false | _ => true end
  end.

(** *** [int(s)] for a [str] argument, base 10 *)

(** CPython's default [sys.int_max_str_digits]. *)
Definition int_max_str_digits : nat := 4300.

(** White space accepted around the literal: TAB, LF, VT, FF, CR, SPACE
    and, in the range modelled, NEL (133) and NBSP (160), which CPython
    rewrites to SPACE before parsing. *)
Definition is_space (c : ascii) : bool :=
  let n := N_of_ascii c in
  ((9 <=? n) && (n <=? 13) || (n =? 32) || (n =? 133) || (n =? 160))%N.

Definition digit_value (c : ascii) : option Z :=
  let n := N_of_ascii c in
  if ((48 <=? n) && (n <=? 57))%N then Some (Z.of_N n - 48) else None.

Fixpoint skip_spaces (s : string) : string :=
  match s with
  | String c s' => if is_space c then skip_spaces s' else s
  | EmptyString => s
  end.

(** The digit scan: digits with single underscores between them.
    [prev_us] records that the previous character was an underscore;
    [acc] is the value and [n] the number of digits read so far.
    Returns [None] on a doubled or trailing underscore. *)
Fixpoint scan_digits (s : string) (prev_us : bool) (acc : Z) (n : nat)
  : option (Z * nat * string) :=
  match s with
  | String c s' =>
      if Ascii.eqb c "_" then
        if prev_us then None else scan_digits s' true acc n
      else
        match digit_value c with
        | Some d => scan_digits s' false (10 * acc + d) (S n)
        | None => if prev_us then None else Some (acc, n, s)
        end
  | EmptyString => if prev_us then None else Some (acc, n, s)
  end.

(** An optional sign in front of the digits. *)
Definition split_sign (s : string) : Z * string :=
  match s with
  | String c r =>
      if Ascii.eqb c "+" then (1, r)
      else if Ascii.eqb c "-" then (-1, r)
      else (1, s)
  | EmptyString => (1, s)
  end.

Definition starts_with (c : ascii) (s : string) : bool :=
  match s with
  | String c' _ => Ascii.eqb c' c
  | EmptyString => false
  end.

(** Leading white space, sign, digits (no leading underscore, at least
    one digit, at most [int_max_str_digits] of them), trailing white
    space, end of text; anything else raises [ValueError]. *)
Definition int (s : string) : result Z :=
  let '(sign, body) := split_sign (skip_spaces s) in
  if starts_with "_" body then Raise ValueError
  else
    match scan_digits body false 0 0 with
    | None => Raise ValueError
    | Some (z, n, rest) =>
        if (int_max_str_digits <? n)%nat then Raise ValueError
        else if (n =? 0)%nat then Raise ValueError
        else
          match skip_spaces rest with
          | EmptyString => Ok (sign * z)
          | String _ _ => Raise ValueError
          end
    end.

(** *** [repr] and [str] *)

Definition hex_digit (n : N) : ascii :=
  if (n <? 10)%N then ascii_of_N (48 + n) else ascii_of_N (87 + n).

Definition is_printable (c : ascii) : bool :=
  let n := N_of_ascii c in
  ((32 <=? n) && (n <? 127) || (161 <=? n) && negb (n =? 173))%N.

Definition repr_char (quote c : ascii) : string :=
  if Ascii.eqb c quote || Ascii.eqb c "\" then String "\" (String c "")
  else if Ascii.eqb c "009" then "\t"
  else if Ascii.eqb c "010" then "\n"
  else if Ascii.eqb c "013" then "\r"
  else if is_printable c then String c ""
  else
    let n := N_of_ascii c in
    String "\" (String "x" (String (hex_digit (n / 16))
                              (String (hex_digit (n mod 16)) ""))).

Fixpoint contains (c : ascii) (s : string) : bool :=
  match s with
  | String c' s' => Ascii.eqb c c' || contains c s'
  | EmptyString => false
  end.

Fixpoint repr_chars (quote : ascii) (s : string) : string :=
  match s with
  | String c s' => repr_char quote c ++ repr_chars quote s'
  | EmptyString => ""
  end.

Definition str_repr (s : string) : string :=
  let quote : ascii :=
    if contains "'" s && negb (contains "034" s) then "034"%char else "'"%char in
  String quote (repr_chars quote s ++ String quote "").

(** Decimal text of an integer; conversion of more than
    [int_max_str_digits] digits raises [ValueError]. *)
Definition int_repr (z : Z) : result string :=
  let digits := NilEmpty.string_of_uint (N.to_uint (Z.abs_N z)) in
  if (int_max_str_digits <? String.length digits)%nat then Raise ValueError
  else Ok (if z <? 0 then String "-" digits else digits).

Fixpoint join (sep : string) (l : list string) : string :=
  match l with
  | [] => ""
  | [x] => x
  | x :: l' => x ++ sep ++ join sep l'
  end.

Fixpoint repr (v : value) : result string :=
  match v with
  | VNone => Ok "None"
  | VBool b => Ok (if b then "True" else "False")
  | VInt z => int_repr z
  | VFloat r => Ok r
  | VStr s => Ok (str_repr s)
  | VList l =>
      let items :=
        (fix items (l : list value) : result (list string) :=
           match l with
           | [] => Ok []
           | x :: l' =>
               match repr x with
               | Raise e => Raise e
               | Ok t =>
                   match items l' with
                   | Raise e => Raise e
                   | Ok ts => Ok (t :: ts)
                   end
               end
           end) l in
      match items with
      | Raise e => Raise e
      | Ok ts => Ok ("[" ++ join ", " ts ++ "]")
      end
  | VDict d =>
      let items :=
        (fix items (d : list (string * value)) : result (list string) :=
           match d with
           | [] => Ok []
           | (k, x) :: d' =>
               match repr x with
               | Raise e => Raise e
               | Ok t =>
                   match items d' with
                   | Raise e => Raise e
                   | Ok ts => Ok ((str_repr k ++ ": " ++ t) :: ts)
                   end
               end
           end) d in
      match items with
      | Raise e => Raise e
      | Ok ts => Ok ("{" ++ join ", " ts ++ "}")
      end
  end.

(** [str(v)]; also [format(v, "")], the conversion an f-string field
    applies. *)
Definition str (v : value) : result string :=
  match v with
  | VStr s => Ok s
  | _ => repr v
  end.

(** *** Dictionaries *)

Fixpoint lookup (k : string) (d : list (string * value)) : option value :=
  match d with
  | [] => None
  | (k', v) :: d' => if String.eqb k k' then Some v else lookup k d'
  end.

(** [obj.get(k, default)]: only a [dict] has the attribute. *)
Definition get (obj : value) (k : string) (default : value) : result value :=
  match obj with
  | VDict d =>
      Ok (match lookup k d with Some v => v | None => default end)
  | _ => Raise AttributeError
  end.

(** [obj[k]] for a string key [k]. *)
Definition getitem (obj : value) (k : string) : result value :=
  match obj with
  | VDict d =>
      match lookup k d with Some v => Ok v | None => Raise KeyError end
  | _ => Raise TypeError
  end.

(** [v == s] for a [str] literal [s]. *)
Definition eq_str (v : value) (s : string) : bool :=
  match v with
  | VStr s' => String.eqb s' s
  | _ => false
  end.

End Py.

(** ** The state-and-exception monad of the handlers *)

(** The module-level list [WORKOUTS] is the only mutable state. *)
Definition store : Type := list value.

Definition M (A : Type) : Type := store -> result A * store.

Definition ret {A} (a : A) : M A := fun st => (Ok a, st).

Definition bind {A B} (m : M A) (k : A -> M B) : M B :=
  fun st =>
    match m st with
    | (Ok a, st') => k a st'
    | (Raise e, st') => (Raise e, st')
    end.

(** An expression without effect on the store. *)
Definition lift {A} (r : result A) : M A := fun st => (r, st).

(** [try: body / except cls: handler].  The store is not rolled back when
    the handler runs. *)
Definition try_except {A} (body : M A) (cls : exn) (handler : M A) : M A :=
  fun st =>
    match body st with
    | (Ok a, st') => (Ok a, st')
    | (Raise e, st') => if exn_eqb e cls then handler st' else (Raise e, st')
    end.

(** [WORKOUTS.append(v)] *)
Definition append (v : value) : M unit := fun st => (Ok tt, (st ++ [v])%list).

(** Reading the global [WORKOUTS]. *)
Definition read : M store := fun st => (Ok st, st).

Notation "x <- m ;; k" := (bind m (fun x => k))
  (at level 61, m at next level, right associativity).
Notation "m ;;; k" := (bind m (fun _ => k))
  (at level 61, right associativity).

(** ** The application *)

Module ACEest_Fitness.

(** [WORKOUTS = []]: the store when the module is loaded. *)
Definition WORKOUTS : store := [].

Definition APP_VERSION : string := "1.0".

(** The two-field result dictionaries of [add_workout_logic]. *)
Definition reply (status message : string) : value :=
  VDict [("status", VStr status); ("message", VStr message)].

(** The record appended by a successful call. *)
Definition entry (workout : value) (duration : Z) : value :=
  VDict [("workout", workout); ("duration", VInt duration)].

Definition add_workout_logic (workout : value) (duration_str : string)
  : M value :=
  if negb (Py.truthy workout) || negb (Py.truthy (VStr duration_str)) then
    ret (reply "error" "Please enter both workout and duration.")
  else
    try_except
      (duration <- lift (Py.int duration_str) ;;
       if duration <=? 0 then
         ret (reply "error" "Duration must be a positive number.")
       else
         append (entry workout duration) ;;;
         text <- lift (Py.str workout) ;;
         ret (reply "success" ("'" ++ text ++ "' added successfully!")))
      ValueError
      (ret (reply "error" "Duration must be a number.")).

(** A response: the object returned to Flask and the status code. *)
Definition response : Type := value * Z.

Definition home : M response :=
  ret (VStr ("Welcome to ACEest Fitness & Gym! Application Version: "
             ++ APP_VERSION), 200).

Definition health_check : M response :=
  ret (VDict [("status", VStr "UP"); ("version", VStr APP_VERSION)], 200).

(** [data] is the value of [request.get_json()]. *)
Definition add_workout (data : value) : M response :=
  workout <- lift (Py.get data "workout" (VStr "")) ;;
  duration <- lift (Py.get data "duration" (VStr "")) ;;
  duration_str <- lift (Py.str duration) ;;
  result <- add_workout_logic workout duration_str ;;
  status <- lift (Py.getitem result "status") ;;
  if Py.eq_str status "error" then ret (result, 400)
  else ret (result, 201).

Definition get_workouts : M response :=
  workouts <- read ;;
  let summary :=
    VDict [("total_workouts", VInt (Z.of_nat (List.length workouts)));
           ("workouts", VList workouts)] in
  ret (summary, 200).

(** The view functions, and the rules the four [@app.route] decorators
    declare: path, methods, view. *)
Inductive view : Set := Home | HealthCheck | AddWorkout | GetWorkouts.

Definition routes : list (string * list string * view) :=
  [("/", ["GET"], Home);
   ("/health", ["GET"], HealthCheck);
   ("/api/workouts", ["POST"], AddWorkout);
   ("/api/workouts", ["GET"], GetWorkouts)].

(** What a rule of [app.url_map] is bound to: one of the views above, or
    the "static" endpoint that [Flask(__name__)] registers on its own. *)
Inductive endpoint : Set := Static | View (v : view).

(** The path of a rule: literal text, or a prefix followed by one
    [<path:...>] variable. *)
Inductive pattern : Set :=
| Literal (path : string)
| PathTail (prefix variable : string).

Definition rule_text (pat : pattern) : string :=
  match pat with
  | Literal path => path
  | PathTail prefix variable => prefix ++ "<path:" ++ variable ++ ">"
  end.

(** The methods [add_url_rule] records for a rule: HEAD is added where
    GET is allowed, and OPTIONS to every rule. *)
Definition rule_methods (methods : list string) : list string :=
  (methods
     ++ (if existsb (String.eqb "GET") methods then ["HEAD"] else [])
     ++ ["OPTIONS"])%list.

(** [app.url_map]: the static rule of [Flask(__name__)], then the rules of
    the decorators. *)
Definition url_map : list (pattern * list string * endpoint) :=
  (PathTail "/static/" "filename", rule_methods ["GET"], Static)
  :: List.map (fun r : string * list string * view =>
                 let '(path, methods, v) := r in
                 (Literal path, rule_methods methods, View v))
              routes.

(** [method.upper()], as far as the method names of the rules can tell:
    ASCII letters become capitals, other characters are kept (none of
    them turns into letters of such a name). *)
Definition upper_char (c : ascii) : ascii :=
  let n := N_of_ascii c in
  if ((97 <=? n) && (n <=? 122))%N then ascii_of_N (n - 32) else c.

Fixpoint ascii_upper (s : string) : string :=
  match s with
  | String c s' => String (upper_char c) (ascii_upper s')
  | EmptyString => ""
  end.

Fixpoint lstrip_slashes (s : string) : string :=
  match s with
  | String c s' => if Ascii.eqb c "/" then lstrip_slashes s' else s
  | EmptyString => s
  end.

(** The path that is matched: [PATH_INFO] with its leading slashes
    replaced by a single one. *)
Definition request_path (path_info : string) : string :=
  match path_info with
  | EmptyString => ""
  | String _ _ => String "/" (lstrip_slashes path_info)
  end.

Fixpoint strip_prefix (prefix s : string) : option string :=
  match prefix, s with
  | EmptyString, _ => Some s
  | String a prefix', String b s' =>
      if Ascii.eqb a b then strip_prefix prefix' s' else None
  | String _ _, EmptyString => None
  end.

(** The [path] converter: a character other than a slash, then any
    characters but line feeds, up to the end of the path. *)
Definition path_converter (s : string) : bool :=
  match s with
  | String c rest => negb (Ascii.eqb c "/") && negb (Py.contains "010" rest)
  | EmptyString => false
  end.

(** The value of the rule's variable when the path fits the pattern (the
    empty text for a literal rule). *)
Definition match_pattern (pat : pattern) (path : string) : option string :=
  match pat with
  | Literal p => if String.eqb p path then Some "" else None
  | PathTail prefix _ =>
      match strip_prefix prefix path with
      | Some rest => if path_converter rest then Some rest else None
      | None => None
      end
  end.

Definition rule_matches (method path : string)
           (rule : pattern * list string * endpoint) : bool :=
  let '(pat, methods, _) := rule in
  match match_pattern pat path with
  | Some _ => existsb (String.eqb method) methods
  | None => false
  end.

(** What serves a request: Flask's automatic answer to OPTIONS, Flask's
    sender of static files, or a view of this program. *)
Inductive target : Set :=
| AutomaticOptions
| SendStatic (filename : string)
| RunView (v : view).

(** The first rule that fits the path and allows the method, and what
    Flask does with it. *)
Definition match_request (method path : string) : option target :=
  match List.find (rule_matches method path) url_map with
  | Some (pat, _, ep) =>
      if String.eqb method "OPTIONS" then Some AutomaticOptions
      else
        match ep, match_pattern pat path with
        | View v, _ => Some (RunView v)
        | Static, Some filename => Some (SendStatic filename)
        | Static, None => None
        end
  | None => None
  end.

(** Routing of a request, given the [REQUEST_METHOD] and the [PATH_INFO]
    of its WSGI environment: the method is put in capitals and the path
    gets a single leading slash before the rules are tried.  [None]
    stands for every answer that reaches no endpoint: not found, method
    not allowed, redirect. *)
Definition route (method path_info : string) : option target :=
  match_request (ascii_upper method) (request_path path_info).

(** The view of this program that runs for a request line, if any. *)
Definition dispatch (method path : string) : option view :=
  match route method path with
  | Some (RunView v) => Some v
  | _ => None
  end.

(** Running a view; [data] is the JSON body of the request. *)
Definition call (v : view) (data : value) : M response :=
  match v with
  | Home => home
  | HealthCheck => health_check
  | AddWorkout => add_workout data
  | GetWorkouts => get_workouts
  end.

(** The paths that occur in [url_map], without repetition. *)
Definition paths : list string :=
  List.nodup string_dec
    (List.map (fun r : pattern * list string * endpoint =>
                 rule_text (fst (fst r))) url_map).

End ACEest_Fitness.

Import ACEest_Fitness.

(** ** Vocabulary of the specification *)

(** The four results [add_workout_logic] can return. *)
Definition err_both : value :=
  reply "error" "Please enter both workout and duration.".
Definition err_positive : value :=
  reply "error" "Duration must be a positive number.".
Definition err_number : value :=
  reply "error" "Duration must be a number.".
Definition added (text : string) : value :=
  reply "success" ("'" ++ text ++ "' added successfully!").

(** [r["status"] == s] for a result dictionary [r]. *)
Definition status_is (s : string) (r : value) : bool :=
  match Py.getitem r "status" with
  | Ok v => Py.eq_str v s
  | Raise _ => false
  end.

(** The call returns status "success" and appends the entry. *)
Definition accepts (workout : value) (duration_str : string) (st : store)
  : Prop :=
  exists r z,
    add_workout_logic workout duration_str st
    = (Ok r, (st ++ [entry workout z])%list)
    /\ status_is "success" r = true.

(** The duration text parses as a strictly positive integer. *)
Definition parses_positive (duration_str : string) : Prop :=
  exists z, Py.int duration_str = Ok z /\ 0 < z.

(** A stored record: exactly the fields "workout", holding a true
    (non-empty) value, and "duration", holding a positive integer. *)
Definition valid_entry (e : value) : bool :=
  match e with
  | VDict [(k1, w); (k2, VInt z)] =>
      String.eqb k1 "workout" && String.eqb k2 "duration"
      && Py.truthy w && (0 <? z)
  | _ => false
  end.

Definition store_ok (st : store) : Prop :=
  Forall (fun e => valid_entry e = true) st.

(** The states the service can be in: the initial list, and the list
    after any view has run on any request body. *)
Inductive reachable : store -> Prop :=
| reach_init : reachable WORKOUTS
| reach_call (v : view) (data : value) (st : store) :
    reachable st -> reachable (snd (call v data st)).

(** A run of calls to [add_workout_logic], collecting the results. *)
Fixpoint add_all (reqs : list (value * string)) : M (list value) :=
  match reqs with
  | [] => ret []
  | (workout, duration_str) :: reqs' =>
      r <- add_workout_logic workout duration_str ;;
      rs <- add_all reqs' ;;
      ret (r :: rs)
  end.

(** The HEAD requests that Flask serves with the views declared for
    GET. *)
Definition head_operations : list (string * string) :=
  [("HEAD", "/"); ("HEAD", "/health"); ("HEAD", "/api/workouts")].

(** A path under the static rule. *)
Definition static_path (path : string) : Prop :=
  exists filename,
    path = "/static/" ++ filename /\ path_converter filename = true.

(** The four operations as the specification lists them. *)
Definition spec_operations : list (string * string) :=
  [("GET", "/"); ("GET", "/health");
   ("POST", "/api/workouts"); ("GET", "/api/workouts")].

(** ** Sessions, decoded bodies and the start-up block *)

(** Number of decimal digits of an integer. *)
Definition int_digits (z : Z) : nat :=
  String.length (NilEmpty.string_of_uint (N.to_uint (Z.abs_N z))).

(** Objects as [json.loads] yields them: it reads integer literals with
    [int], so every integer inside has at most [int_max_str_digits]
    digits. *)
Fixpoint decoded (v : value) : bool :=
  match v with
  | VInt z => (int_digits z <=? Py.int_max_str_digits)%nat
  | VList l => forallb decoded l
  | VDict d => forallb (fun kv => decoded (snd kv)) d
  | _ => true
  end.

(** The views that only read the list. *)
Definition read_only (v : view) : bool :=
  match v with
  | AddWorkout => false
  | _ => true
  end.

(** A session: requests served one after the other by the same process.
    An exception ends the request, not the process; the next request sees
    the list as the failed one left it. *)
Fixpoint serve_all (reqs : list (view * value)) (st : store)
  : list (result response) * store :=
  match reqs with
  | [] => ([], st)
  | (v, data) :: reqs' =>
      let '(out, st1) := call v data st in
      let '(outs, st2) := serve_all reqs' st1 in
      (out :: outs, st2)
  end.

(** The request was answered 201. *)
Definition created (out : result response) : bool :=
  match out with
  | Ok (_, code) => code =? 201
  | Raise _ => false
  end.

(** The text consists of white space only (as [int] sees it). *)
Fixpoint blank (s : string) : bool :=
  match s with
  | String c s' => Py.is_space c && blank s'
  | EmptyString => true
  end.

(** [os.environ.get(k)]: the text of a variable of the environment. *)
Fixpoint environ_get (environ : list (string * string)) (k : string)
  : option string :=
  match environ with
  | [] => None
  | (k', s) :: environ' =>
      if String.eqb k k' then Some s else environ_get environ' k
  end.

(** [int(x)] for an argument that is a [str] or an [int]. *)
Definition int_arg (x : string + Z) : result Z :=
  match x with
  | inl s => Py.int s
  | inr z => Ok z
  end.

(** The start-up block: [port = int(os.environ.get("PORT", 5000))]. *)
Definition port (environ : list (string * string)) : result Z :=
  int_arg (match environ_get environ "PORT" with
           | Some s => inl s
           | None => inr 5000
           end).

(** ** Facts about the built-ins *)

(** [int] raises nothing but [ValueError]. *)
Lemma int_raises_ValueError (s : string) (e : exn) :
  Py.int s = Raise e -> e = ValueError.
Proof.
  unfold Py.int.
  destruct (Py.split_sign (Py.skip_spaces s)) as [sign body].
  destruct (Py.starts_with "_" body); [congruence|].
  destruct (Py.scan_digits body false 0 0) as [[[z n] rest]|]; [|congruence].
  destruct (Py.int_max_str_digits <? n)%nat; [congruence|].
  destruct (n =? 0)%nat; [congruence|].
  destruct (Py.skip_spaces rest); congruence.
Qed.

(** The empty text is not an integer literal. *)
Lemma int_empty : Py.int "" = Raise ValueError.
Proof. reflexivity. Qed.

Lemma truthy_str (s : string) : Py.truthy (VStr s) = true <-> s <> "".
Proof.
  simpl. destruct (String.eqb_spec s ""); simpl; split; congruence.
Qed.

(** Induction over objects that reaches inside lists and dictionaries. *)
Lemma value_nested_ind (P : value -> Prop) :
  P VNone ->
  (forall b, P (VBool b)) ->
  (forall z, P (VInt z)) ->
  (forall r, P (VFloat r)) ->
  (forall s, P (VStr s)) ->
  (forall l, Forall P l -> P (VList l)) ->
  (forall d, Forall (fun kv => P (snd kv)) d -> P (VDict d)) ->
  forall v, P v.
Proof.
  intros HNone HBool HInt HFloat HStr HList HDict.
  fix IH 1. intros [ | b | z | r | s | l | d].
  - exact HNone.
  - apply HBool.
  - apply HInt.
  - apply HFloat.
  - apply HStr.
  - apply HList. induction l as [|x l IHl]; constructor; [apply IH | exact IHl].
  - apply HDict. induction d as [|[k x] d IHd]; constructor;
      [apply IH | exact IHd].
Qed.

(** [repr], hence [str], raises nothing but [ValueError]. *)
Lemma repr_raises_ValueError (v : value) (e : exn) :
  Py.repr v = Raise e -> e = ValueError.
Proof.
  revert e. induction v as [ | b | z | r | s | l IHl | d IHd]
    using value_nested_ind; intros e; simpl.
  - discriminate.
  - discriminate.
  - unfold Py.int_repr.
    destruct (Py.int_max_str_digits <? _)%nat; congruence.
  - discriminate.
  - discriminate.
  - match goal with |- match ?items with _ => _ end = _ -> _ =>
      assert (Hitems : forall e', items = Raise e' -> e' = ValueError)
    end.
    { induction IHl as [|x l Hx _ IH]; intros e'; [discriminate|].
      destruct (Py.repr x) as [t|ex] eqn:Hr.
      - match goal with |- match ?rest with _ => _ end = _ -> _ =>
          destruct rest as [ts|er] eqn:Hrest end; [discriminate|].
        intros H. injection H as <-. now apply IH.
      - intros H. injection H as <-. now apply Hx. }
    match goal with |- match ?items with _ => _ end = _ -> _ =>
      destruct items as [ts|ei] end; [discriminate|].
    intros H. injection H as <-. now apply Hitems.
  - match goal with |- match ?items with _ => _ end = _ -> _ =>
      assert (Hitems : forall e', items = Raise e' -> e' = ValueError)
    end.
    { induction IHd as [|[k x] d Hx _ IH]; intros e'; [discriminate|].
      simpl in Hx.
      destruct (Py.repr x) as [t|ex] eqn:Hr.
      - match goal with |- match ?rest with _ => _ end = _ -> _ =>
          destruct rest as [ts|er] eqn:Hrest end; [discriminate|].
        intros H. injection H as <-. now apply IH.
      - intros H. injection H as <-. now apply Hx. }
    match goal with |- match ?items with _ => _ end = _ -> _ =>
      destruct items as [ts|ei] end; [discriminate|].
    intros H. injection H as <-. now apply Hitems.
Qed.

Lemma str_raises_ValueError (v : value) (e : exn) :
  Py.str v = Raise e -> e = ValueError.
Proof.
  destruct v; try apply repr_raises_ValueError. discriminate.
Qed.

(** ** [int] reads back what [str] prints for an integer *)

Lemma scan_digit (c : ascii) (d : Z) (s : string) (acc : Z) (n : nat) :
  Ascii.eqb c "_" = false ->
  Py.digit_value c = Some d ->
  Py.scan_digits (String c s) false acc n
  = Py.scan_digits s false (10 * acc + d) (S n).
Proof. intros Hc Hd. simpl. now rewrite Hc, Hd. Qed.

Lemma scan_uint_pos (u : Decimal.uint) (p : positive) (n : nat) :
  Py.scan_digits (NilEmpty.string_of_uint u) false (Z.pos p) n
  = Some (Z.pos (Pos.of_uint_acc u p), (n + Decimal.nb_digits u)%nat, "").
Proof.
  revert p n.
  induction u as [ | u IH | u IH | u IH | u IH | u IH
                   | u IH | u IH | u IH | u IH | u IH ];
    intros p n;
    cbn [NilEmpty.string_of_uint Decimal.nb_digits Pos.of_uint_acc];
    [ simpl; now rewrite Nat.add_0_r | .. ];
    (erewrite scan_digit by reflexivity);
    rewrite <- Nat.add_succ_comm, <- IH; f_equal;
    simpl (Z.of_N _); lia.
Qed.

Lemma scan_uint (u : Decimal.uint) (n : nat) :
  Py.scan_digits (NilEmpty.string_of_uint u) false 0 n
  = Some (Z.of_N (Pos.of_uint u), (n + Decimal.nb_digits u)%nat, "").
Proof.
  revert n.
  induction u as [ | u IH | u IH | u IH | u IH | u IH
                   | u IH | u IH | u IH | u IH | u IH ];
    intros n;
    cbn [NilEmpty.string_of_uint Decimal.nb_digits Pos.of_uint];
    [ simpl; now rewrite Nat.add_0_r | .. ];
    (erewrite scan_digit by reflexivity);
    rewrite <- Nat.add_succ_comm;
    [ now rewrite <- IH | .. ];
    match goal with
    | |- Py.scan_digits _ false ?a _ = _ =>
        let a' := eval compute in a in change a with a'
    end;
    now rewrite scan_uint_pos.
Qed.

Lemma length_string_of_uint (u : Decimal.uint) :
  String.length (NilEmpty.string_of_uint u) = Decimal.nb_digits u.
Proof. induction u; simpl; congruence. Qed.

(** Decimal digits of a natural number: at least one, and read back by
    [int] when within the digit limit. *)
Lemma int_of_digits (m : N) :
  let digits := NilEmpty.string_of_uint (N.to_uint m) in
  (String.length digits <= Py.int_max_str_digits)%nat ->
  Py.int digits = Ok (Z.of_N m)
  /\ Py.int (String "-" digits) = Ok (- Z.of_N m).
Proof.
  intros digits Hlen.
  assert (Hnil : N.to_uint m <> Decimal.Nil).
  { destruct m; [discriminate | apply DecimalPos.Unsigned.to_uint_nonnil]. }
  assert (Hscan : Py.scan_digits digits false 0 0
                  = Some (Z.of_N m, String.length digits, "")).
  { unfold digits. rewrite scan_uint, length_string_of_uint.
    change (Pos.of_uint (N.to_uint m)) with (N.of_uint (N.to_uint m)).
    now rewrite DecimalN.Unsigned.of_to. }
  assert (Hpos : (String.length digits =? 0)%nat = false).
  { apply Nat.eqb_neq. unfold digits. rewrite length_string_of_uint.
    destruct (N.to_uint m); simpl; congruence. }
  assert (Hlim : (Py.int_max_str_digits <? String.length digits)%nat = false).
  { apply Nat.ltb_ge. exact Hlen. }
  assert (Hhead : Py.split_sign (Py.skip_spaces digits) = (1, digits)
                  /\ Py.starts_with "_" digits = false).
  { unfold digits. destruct (N.to_uint m); [congruence | ..];
      split; reflexivity. }
  destruct Hhead as [Hsign Hus].
  split.
  - unfold Py.int. rewrite Hsign, Hus, Hscan, Hlim, Hpos.
    cbn [Py.skip_spaces]. f_equal; lia.
  - unfold Py.int.
    change (Py.split_sign (Py.skip_spaces (String "-" digits)))
      with (-1, digits).
    cbv beta iota. rewrite Hus, Hscan, Hlim, Hpos.
    cbn [Py.skip_spaces]. f_equal; lia.
Qed.

(** Round trip: the text [str] gives for an integer parses back to it. *)
Lemma int_of_str_int (z : Z) (s : string) :
  Py.str (VInt z) = Ok s -> Py.int s = Ok z.
Proof.
  simpl. unfold Py.int_repr.
  destruct (Py.int_max_str_digits <? _)%nat eqn:Hlim; [discriminate|].
  apply Nat.ltb_ge in Hlim.
  destruct (int_of_digits (Z.abs_N z) Hlim) as [Hplus Hminus].
  rewrite N2Z.inj_abs_N in Hplus, Hminus.
  destruct (Z.ltb_spec z 0); intros [= <-].
  - rewrite Hminus. f_equal. lia.
  - rewrite Hplus. f_equal. lia.
Qed.

(** ** The outcome of [add_workout_logic], case by case *)

Lemma add_workout_logic_eq (workout : value) (duration_str : string)
      (st : store) :
  add_workout_logic workout duration_str st =
  if negb (Py.truthy workout) || String.eqb duration_str "" then
    (Ok err_both, st)
  else
    match Py.int duration_str with
    | Raise _ => (Ok err_number, st)
    | Ok z =>
        if z <=? 0 then (Ok err_positive, st)
        else
          match Py.str workout with
          | Ok text => (Ok (added text), (st ++ [entry workout z])%list)
          | Raise _ => (Ok err_number, (st ++ [entry workout z])%list)
          end
    end.
Proof.
  unfold add_workout_logic.
  change (Py.truthy (VStr duration_str))
    with (negb (String.eqb duration_str "")).
  rewrite negb_involutive.
  destruct (negb (Py.truthy workout) || String.eqb duration_str "");
    [reflexivity|].
  unfold try_except, bind, lift, ret, append.
  destruct (Py.int duration_str) as [z|e] eqn:Hint.
  - destruct (z <=? 0); [reflexivity|].
    destruct (Py.str workout) as [text|e] eqn:Hstr; [reflexivity|].
    apply str_raises_ValueError in Hstr. subst e. reflexivity.
  - apply int_raises_ValueError in Hint. subst e. reflexivity.
Qed.

(** Case analysis on a call [add_workout_logic workout d st] in the goal. *)
Ltac logic_cases workout d :=
  rewrite ?add_workout_logic_eq in *;
  destruct (Py.truthy workout) eqn:Htruthy; cbn [negb orb] in *;
  [ destruct (String.eqb_spec d "") as [Hempty|Hfull];
    [ | destruct (Py.int d) as [z|e] eqn:Hint;
        [ destruct (Z.leb_spec z 0) as [Hle|Hpos];
          [ | destruct (Py.str workout) as [text|e] eqn:Hstr ] | ] ]
  | ].

(** The function always returns a result dictionary whose status is
    "success" or "error"; it never lets an exception escape. *)
Lemma add_workout_logic_returns (workout : value) (d : string) (st : store) :
  exists r st',
    add_workout_logic workout d st = (Ok r, st')
    /\ (status_is "success" r = true /\ status_is "error" r = false
        \/ status_is "success" r = false /\ status_is "error" r = true).
Proof.
  logic_cases workout d; eexists; eexists; (split; [reflexivity|]);
    cbv; auto.
Qed.

(** Appending a record changes the list. *)
Lemma app_one_neq {A} (l : list A) (x : A) : l <> (l ++ [x])%list.
Proof.
  intros H. apply (f_equal (@List.length A)) in H.
  rewrite length_app in H. simpl in H. lia.
Qed.

(** ** How the views act on the list *)

Lemma valid_entry_entry (workout : value) (z : Z) :
  Py.truthy workout = true -> 0 < z -> valid_entry (entry workout z) = true.
Proof.
  intros Hw Hz. simpl. rewrite Hw. simpl. now apply Z.ltb_lt.
Qed.

(** A call to [add_workout_logic] leaves the list as it is or appends one
    valid record. *)
Lemma logic_extends (workout : value) (d : string) (st : store) :
  exists new,
    snd (add_workout_logic workout d st) = (st ++ new)%list
    /\ (List.length new <= 1)%nat
    /\ Forall (fun e => valid_entry e = true) new.
Proof.
  logic_cases workout d; simpl;
    try (exists []; rewrite app_nil_r; repeat split; auto; fail);
    exists [entry workout z]; repeat split; auto;
    constructor; auto using valid_entry_entry.
Qed.

(** A successful call appended the record built from its arguments. *)
Lemma logic_success_inv
      (workout : value) (d : string) (st st' : store) (r : value) :
  add_workout_logic workout d st = (Ok r, st') ->
  status_is "success" r = true ->
  exists z, Py.int d = Ok z /\ 0 < z
            /\ st' = (st ++ [entry workout z])%list.
Proof.
  intros Hcall Hstatus.
  logic_cases workout d; injection Hcall as <- <-;
    try (cbv in Hstatus; discriminate).
  exists z. auto.
Qed.

(** [add_workout] on a JSON object whose duration has a text form: the
    result of [add_workout_logic] with the status code chosen from its
    "status" field. *)
Lemma add_workout_eq
      (data workout duration : value) (ds : string) (st : store) :
  Py.get data "workout" (VStr "") = Ok workout ->
  Py.get data "duration" (VStr "") = Ok duration ->
  Py.str duration = Ok ds ->
  exists r st',
    add_workout_logic workout ds st = (Ok r, st')
    /\ add_workout data st
       = (Ok (r, if status_is "error" r then 400 else 201), st').
Proof.
  intros Hw Hd Hs.
  destruct (add_workout_logic_returns workout ds st)
    as (r & st' & Hcall & Hstatus).
  exists r, st'. split; [exact Hcall|].
  unfold add_workout, bind, lift. rewrite Hw, Hd, Hs, Hcall.
  unfold status_is in *.
  destruct (Py.getitem r "status") as [v|e];
    [ | destruct Hstatus as [[? _]|[_ ?]]; discriminate ].
  now destruct (Py.eq_str v "error").
Qed.

(** The list after [add_workout]: untouched when the view raises before
    validation, otherwise what [add_workout_logic] left. *)
Lemma add_workout_store (data : value) (st : store) :
  snd (add_workout data st) = st
  \/ exists workout ds,
       snd (add_workout data st) = snd (add_workout_logic workout ds st).
Proof.
  destruct (Py.get data "workout" (VStr "")) as [workout|e] eqn:Hw.
  2:{ left. unfold add_workout, bind, lift. now rewrite Hw. }
  destruct (Py.get data "duration" (VStr "")) as [duration|e] eqn:Hd.
  2:{ left. unfold add_workout, bind, lift. now rewrite Hw, Hd. }
  destruct (Py.str duration) as [ds|e] eqn:Hs.
  2:{ left. unfold add_workout, bind, lift. now rewrite Hw, Hd, Hs. }
  right. exists workout, ds.
  destruct (add_workout_eq _ _ _ _ st Hw Hd Hs) as (r & st' & Hcall & ->).
  now rewrite Hcall.
Qed.

(** Every view leaves the list as it is or appends one valid record. *)
Lemma call_extends (v : view) (data : value) (st : store) :
  exists new,
    snd (call v data st) = (st ++ new)%list
    /\ (List.length new <= 1)%nat
    /\ Forall (fun e => valid_entry e = true) new.
Proof.
  destruct v; simpl;
    try (exists []; rewrite app_nil_r; repeat split; auto; fail).
  destruct (add_workout_store data st) as [->|(workout & ds & ->)].
  - exists []. rewrite app_nil_r. repeat split; auto.
  - apply logic_extends.
Qed.

(** A run of [add_workout_logic] calls whose results are all "success"
    appends one record per call. *)
Lemma add_all_length (reqs : list (value * string)) :
  forall (st st' : store) (rs : list value),
    add_all reqs st = (Ok rs, st') ->
    forallb (status_is "success") rs = true ->
    List.length st' = (List.length st + List.length reqs)%nat.
Proof.
  induction reqs as [|[workout d] reqs IH]; intros st st' rs Hrun Hall.
  - injection Hrun as _ <-. simpl. lia.
  - simpl in Hrun. unfold bind in Hrun.
    destruct (add_workout_logic_returns workout d st)
      as (r & st1 & Hcall & _).
    rewrite Hcall in Hrun.
    destruct (add_all reqs st1) as [[rs'|e] st2] eqn:Hrest;
      [|discriminate].
    injection Hrun as <- <-. simpl in Hall.
    apply andb_true_iff in Hall. destruct Hall as [Hr Hrs].
    destruct (logic_success_inv _ _ _ _ _ Hcall Hr) as (z & _ & _ & ->).
    rewrite (IH _ _ _ Hrest Hrs), length_app. simpl. lia.
Qed.

(** For every [n] there is such a run of length [n]. *)
Lemma add_all_repeat (n : nat) (st : store) :
  add_all (repeat (VStr "run", "30") n) st
  = (Ok (repeat (added "run") n),
     (st ++ repeat (entry (VStr "run") 30) n)%list).
Proof.
  revert st. induction n as [|n IH]; intros st.
  - simpl. now rewrite app_nil_r.
  - cbn [repeat add_all]. unfold bind at 1.
    change (add_workout_logic (VStr "run") "30" st)
      with (Ok (added "run"), (st ++ [entry (VStr "run") 30])%list).
    cbv beta iota. unfold bind at 1. rewrite IH.
    now rewrite <- app_assoc.
Qed.

(** ** Validation (C1) *)

(** C1, as stated: acceptance would depend on the duration text alone.
    It does not: with an empty workout name the duration "30" parses as
    the positive integer 30 and the call is still rejected. *)
Lemma accepts_iff_parses_counterexample :
  ~ (accepts (VStr "") "30" WORKOUTS <-> parses_positive "30").
Proof.
  intros [_ H].
  destruct H as (r & z & Hcall & _).
  - exists 30. split; [reflexivity | lia].
  - cbv in Hcall. discriminate.
Qed.

(** C1, amended: for every workout string and every duration string the
    call is accepted (status "success", entry appended) exactly when the
    workout string is non-empty and the duration string parses as a
    strictly positive integer; in every other case the status is
    "error". *)
Theorem accepts_iff_nonempty_and_positive (w d : string) (st : store) :
  (accepts (VStr w) d st <-> w <> "" /\ parses_positive d)
  /\ (~ accepts (VStr w) d st ->
      exists r st', add_workout_logic (VStr w) d st = (Ok r, st')
                    /\ status_is "error" r = true).
Proof.
  split.
  - split.
    + intros (r & z' & Hcall & Hstatus).
      logic_cases (VStr w) d;
        injection Hcall as <- Hst;
        try (now apply app_one_neq in Hst);
        try (cbv in Hstatus; discriminate).
      split; [now apply truthy_str|]. exists z. auto.
    + intros [Hw (z & Hz & Hpos)].
      apply truthy_str in Hw.
      exists (added w), z. split; [|reflexivity].
      rewrite add_workout_logic_eq, Hw, Hz. simpl.
      destruct (String.eqb_spec d "") as [->|_];
        [rewrite int_empty in Hz; discriminate|].
      destruct (Z.leb_spec z 0); [lia|reflexivity].
  - intros Hrej.
    destruct (add_workout_logic_returns (VStr w) d st)
      as (r & st' & Hcall & [[Hs _]|[_ He]]); [|eauto].
    exfalso. apply Hrej. exists r.
    revert Hcall. logic_cases (VStr w) d; intros Hcall;
      injection Hcall as <- <-; try (cbv in Hs; discriminate).
    exists z. auto.
Qed.

Lemma accepts_iff_nonempty_and_positive_witness :
  accepts (VStr "run") "30" WORKOUTS.
Proof.
  apply (accepts_iff_nonempty_and_positive "run" "30" WORKOUTS).
  split; [discriminate|]. exists 30. split; [reflexivity|lia].
Defined.

(** ** The appended record (C2) *)

(** C2: a call that returns status "success" has appended exactly one
    record at the end of the list, with field "workout" the given name and
    field "duration" the integer parsed from the duration text; the
    entries stored before are all still there, at the same positions. *)
Theorem success_appends_one_record
        (workout : value) (d : string) (st st' : store) (r : value) :
  add_workout_logic workout d st = (Ok r, st') ->
  status_is "success" r = true ->
  exists z,
    Py.int d = Ok z
    /\ st' = (st ++ [VDict [("workout", workout); ("duration", VInt z)]])%list
    /\ List.length st' = S (List.length st)
    /\ (forall i, (i < List.length st)%nat ->
                  nth_error st' i = nth_error st i).
Proof.
  intros Hcall Hstatus.
  logic_cases workout d; injection Hcall as <- <-;
    try (cbv in Hstatus; discriminate).
  exists z. repeat split.
  - rewrite length_app. simpl. lia.
  - intros i Hi. now apply nth_error_app1.
Qed.

Lemma success_appends_one_record_witness :
  exists z,
    Py.int "45" = Ok z
    /\ [entry (VStr "swim") 20; entry (VStr "run") 45]
       = ([entry (VStr "swim") 20]
            ++ [VDict [("workout", VStr "run"); ("duration", VInt z)]])%list
    /\ List.length [entry (VStr "swim") 20; entry (VStr "run") 45]
       = S (List.length [entry (VStr "swim") 20])
    /\ (forall i, (i < List.length [entry (VStr "swim") 20])%nat ->
                  nth_error [entry (VStr "swim") 20; entry (VStr "run") 45] i
                  = nth_error [entry (VStr "swim") 20] i).
Proof.
  apply (success_appends_one_record
           (VStr "run") "45" [entry (VStr "swim") 20]
           [entry (VStr "swim") 20; entry (VStr "run") 45] (added "run"));
    reflexivity.
Defined.

(** ** The single exception handler (C3) *)

(** C3: for a non-empty workout string and a non-empty duration string,
    the call returns the error "Duration must be a number." exactly when
    [int] raises [ValueError] on the duration string.  [ValueError] is the
    only class handled: the [AttributeError] that [add_workout] raises on
    a body that is not a JSON object escapes the view, and the list is
    left as it was. *)
Theorem number_error_iff_ValueError (w d : string) (st : store) :
  w <> "" -> d <> "" ->
  (fst (add_workout_logic (VStr w) d st)
   = Ok (reply "error" "Duration must be a number.")
   <-> Py.int d = Raise ValueError)
  /\ (forall data : value,
         (forall fields, data <> VDict fields) ->
         add_workout data st = (Raise AttributeError, st)).
Proof.
  intros Hw Hd. split.
  - apply truthy_str in Hw.
    logic_cases (VStr w) d; try congruence; simpl; split;
      try discriminate; try reflexivity.
    intros _. now rewrite (int_raises_ValueError _ _ Hint).
  - intros data Hdata.
    destruct data; try reflexivity. now destruct (Hdata fields).
Qed.

Lemma number_error_iff_ValueError_witness :
  fst (add_workout_logic (VStr "run") "30.5" WORKOUTS)
  = Ok (reply "error" "Duration must be a number.")
  /\ add_workout (VList [VStr "run"; VInt 30]) WORKOUTS
     = (Raise AttributeError, WORKOUTS).
Proof.
  destruct (number_error_iff_ValueError "run" "30.5" WORKOUTS) as [Hiff Hattr];
    [discriminate | discriminate | ].
  split.
  - apply Hiff. reflexivity.
  - apply Hattr. discriminate.
Defined.

(** ** Listing the workouts (C4) *)

(** C4: for every state of the list, GET /api/workouts is routed to
    [get_workouts], which answers with a summary whose "total_workouts" is
    the length of the list and whose "workouts" is the whole list, and
    leaves the list unchanged; after a successful add the new record is
    listed last, behind all the records listed before. *)
Theorem get_workouts_lists_everything (st : store) (data : value) :
  dispatch "GET" "/api/workouts" = Some GetWorkouts
  /\ call GetWorkouts data st
     = (Ok (VDict [("total_workouts", VInt (Z.of_nat (List.length st)));
                   ("workouts", VList st)], 200), st)
  /\ (forall workout d r st',
         add_workout_logic workout d st = (Ok r, st') ->
         status_is "success" r = true ->
         exists e,
           get_workouts st'
           = (Ok (VDict [("total_workouts",
                          VInt (Z.of_nat (List.length st) + 1));
                         ("workouts", VList (st ++ [e]))], 200), st')).
Proof.
  split; [reflexivity|]. split; [reflexivity|].
  intros workout d r st' Hcall Hstatus.
  destruct (logic_success_inv _ _ _ _ _ Hcall Hstatus) as (z & _ & _ & ->).
  exists (entry workout z).
  unfold get_workouts, bind, read, ret. rewrite length_app. simpl.
  repeat f_equal. lia.
Qed.

Lemma get_workouts_lists_everything_witness :
  exists e,
    get_workouts [entry (VStr "swim") 20; entry (VStr "run") 45]
    = (Ok (VDict [("total_workouts", VInt 2);
                  ("workouts", VList ([entry (VStr "swim") 20] ++ [e]))],
           200),
       [entry (VStr "swim") 20; entry (VStr "run") 45]).
Proof.
  destruct (get_workouts_lists_everything [entry (VStr "swim") 20] VNone)
    as (_ & _ & Hnext).
  apply (Hnext (VStr "run") "45" (added "run")); reflexivity.
Defined.

(** ** The list only grows (C5) *)

(** C5: a run of calls that all return "success" makes the list longer by
    the number of calls, so [n] successful adds on the empty list give a
    list of length [n]; such a run exists for every [n]; a successful POST
    makes the list exactly one longer; and no view ever removes or changes
    a stored record: the list after a view is the list before it followed
    by at most one new record. *)
Theorem list_is_unbounded_and_only_grows :
  (forall (reqs : list (value * string)) (rs : list value) (st' : store),
      add_all reqs WORKOUTS = (Ok rs, st') ->
      forallb (status_is "success") rs = true ->
      List.length st' = List.length reqs)
  /\ (forall n : nat,
         exists reqs rs st',
           List.length reqs = n
           /\ add_all reqs WORKOUTS = (Ok rs, st')
           /\ forallb (status_is "success") rs = true
           /\ List.length st' = n)
  /\ (forall (data body : value) (st st' : store),
         add_workout data st = (Ok (body, 201), st') ->
         List.length st' = S (List.length st))
  /\ (forall (v : view) (data : value) (st : store),
         exists new,
           snd (call v data st) = (st ++ new)%list
           /\ (List.length new <= 1)%nat).
Proof.
  repeat split.
  - intros reqs rs st' Hrun Hall.
    now rewrite (add_all_length _ _ _ _ Hrun Hall).
  - intros n.
    exists (repeat (VStr "run", "30") n), (repeat (added "run") n),
      (repeat (entry (VStr "run") 30) n).
    rewrite add_all_repeat, !repeat_length. repeat split.
    induction n; simpl; auto.
  - intros data body st st' Hpost.
    destruct (Py.get data "workout" (VStr "")) as [workout|e] eqn:Hw.
    2:{ unfold add_workout, bind, lift in Hpost. now rewrite Hw in Hpost. }
    destruct (Py.get data "duration" (VStr "")) as [duration|e] eqn:Hd.
    2:{ unfold add_workout, bind, lift in Hpost.
        now rewrite Hw, Hd in Hpost. }
    destruct (Py.str duration) as [ds|e] eqn:Hs.
    2:{ unfold add_workout, bind, lift in Hpost.
        now rewrite Hw, Hd, Hs in Hpost. }
    destruct (add_workout_eq _ _ _ _ st Hw Hd Hs) as (r & st1 & Hcall & Heq).
    rewrite Heq in Hpost.
    destruct (add_workout_logic_returns workout ds st)
      as (r' & st1' & Hcall' & Hstatus).
    rewrite Hcall in Hcall'. injection Hcall' as <- <-.
    destruct Hstatus as [[Hsucc _]|[_ Herr]].
    + injection Hpost as _ _ <-.
      destruct (logic_success_inv _ _ _ _ _ Hcall Hsucc) as (z & _ & _ & ->).
      rewrite length_app. simpl. lia.
    + rewrite Herr in Hpost. discriminate.
  - intros v data st.
    destruct (call_extends v data st) as (new & Hnew & Hlen & _). eauto.
Qed.

Lemma list_is_unbounded_and_only_grows_witness :
  List.length [entry (VStr "swim") 20; entry (VStr "run") 45] = 2%nat.
Proof.
  destruct list_is_unbounded_and_only_grows as [Hrun _].
  apply (Hrun [(VStr "swim", "20"); (VStr "run", "45")]
              [added "swim"; added "run"]); reflexivity.
Defined.

(** ** The liveness probe (C6) *)

(** C6: in every state of the list, GET /health is routed to
    [health_check], which answers 200 with status "UP" and version "1.0";
    the answer is the same whatever the list holds, and the list is left
    unchanged. *)
Theorem health_check_is_always_up (st : store) (data : value) :
  dispatch "GET" "/health" = Some HealthCheck
  /\ call HealthCheck data st
     = (Ok (VDict [("status", VStr "UP"); ("version", VStr "1.0")], 200), st)
  /\ (forall st2 : store, fst (health_check st2) = fst (health_check st)).
Proof. repeat split. Qed.

(** ** The routes (C7) *)

Lemma strip_prefix_app (prefix s rest : string) :
  strip_prefix prefix s = Some rest <-> s = prefix ++ rest.
Proof.
  revert s. induction prefix as [|a prefix IH]; intros s; simpl.
  - split; congruence.
  - destruct s as [|b s]; [split; discriminate|].
    destruct (Ascii.eqb_spec a b) as [->|Hne].
    + rewrite IH. split; congruence.
    + split; [discriminate | congruence].
Qed.

(** Case analysis on the method [m] and the path [p] of a request whose
    matching occurs in the goal: whether [p] is under the static rule,
    which literal path it is, which method [m] is. *)
Ltac route_cases m p :=
  unfold match_request;
  let table := eval vm_compute in url_map in change url_map with table;
  cbn [List.find rule_matches match_pattern existsb];
  destruct (strip_prefix "/static/" p) as [filename|] eqn:Hstatic;
  [ destruct (path_converter filename) eqn:Hconv;
    [ assert (Hsp : static_path p)
        by (exists filename; split;
            [now apply strip_prefix_app | exact Hconv])
    | assert (Hsp : ~ static_path p)
        by (intros (f & Hf & Hc); apply strip_prefix_app in Hf; congruence) ]
  | assert (Hsp : ~ static_path p)
      by (intros (f & Hf & _); apply strip_prefix_app in Hf; congruence) ];
  repeat match goal with
         | |- context [String.eqb ?a ?b] =>
             destruct (String.eqb_spec a b);
             [ try congruence; try subst;
               try (simpl in Hstatic; discriminate Hstatic) | ];
             cbn [orb andb]
         end;
  cbn [match_pattern];
  try match goal with H : strip_prefix _ _ = _ |- _ => rewrite H end;
  try match goal with H : path_converter _ = _ |- _ => rewrite H end.

(** Closing a case: the equalities between request lines are decided by
    the context. *)
Ltac route_facts :=
  repeat match goal with
         | H : _ \/ _ |- _ => destruct H
         | H : _ /\ _ |- _ => destruct H
         | H : (_, _) = (_, _) |- _ =>
             apply pair_equal_spec in H; destruct H; subst
         | H : False |- _ => destruct H
         end;
  try congruence; try tauto; simpl in *; congruence.

(** The requests that run a view of the program. *)
Lemma match_request_view (m p : string) :
  (exists v, match_request m p = Some (RunView v))
  <-> In (m, p) (spec_operations ++ head_operations)%list.
Proof.
  unfold spec_operations, head_operations. cbn [app In].
  route_cases m p;
    (split;
     [ intros [v Hv]; try discriminate Hv;
       repeat (first [left; reflexivity | right])
     | intros Hin;
       first [ solve [eexists; reflexivity] | exfalso; route_facts ] ]).
Qed.

(** The requests that reach an endpoint at all. *)
Lemma match_request_some (m p : string) :
  match_request m p <> None
  <-> In (m, p) (spec_operations ++ head_operations)%list
      \/ (m = "OPTIONS"
          /\ (In p ["/"; "/health"; "/api/workouts"] \/ static_path p))
      \/ (In m ["GET"; "HEAD"] /\ static_path p).
Proof.
  unfold spec_operations, head_operations. cbn [app In].
  route_cases m p;
    (split;
     [ intros Hsome; try (now destruct Hsome); clear Hsome;
       first [ solve [left; repeat (first [left; reflexivity | right])]
             | solve [right; left; split;
                      [ reflexivity
                      | first [ right; exact Hsp
                              | left;
                                repeat (first [left; reflexivity | right]) ] ]]
             | solve [right; right; split;
                      [ repeat (first [left; reflexivity | right])
                      | exact Hsp ]] ]
     | intros Hin;
       first [ discriminate | exfalso; route_facts ] ]).
Qed.

(** HEAD runs the view that GET runs. *)
Lemma match_request_head (p : string) (v : view) :
  match_request "GET" p = Some (RunView v) ->
  match_request "HEAD" p = Some (RunView v).
Proof.
  intros Hget.
  assert (Hin : In ("GET", p) (spec_operations ++ head_operations)%list)
    by (apply match_request_view; eauto).
  unfold spec_operations, head_operations in Hin. cbn [app In] in Hin.
  destruct Hin as [H|[H|[H|[H|[H|[H|[H|[]]]]]]]];
    apply pair_equal_spec in H; destruct H as [Hm Hp];
    try discriminate Hm; subst p;
    vm_compute in Hget; injection Hget as <-; reflexivity.
Qed.

Lemma dispatch_some (method path : string) :
  dispatch method path <> None
  <-> exists v, route method path = Some (RunView v).
Proof.
  unfold dispatch.
  destruct (route method path) as [[ | f | v]|];
    split; try congruence; try (intros [v' H]; discriminate H); eauto.
Qed.

(** C7, as stated: no request line besides the four listed would reach
    the program.  HEAD /health does: Flask adds HEAD to every rule that
    allows GET and serves it with the same view, here [health_check]. *)
Lemma no_other_operation_counterexample :
  ~ (dispatch "HEAD" "/health" <> None
     <-> In ("HEAD", "/health") spec_operations).
Proof.
  intros [Hexposed _].
  assert (Hin : In ("HEAD", "/health") spec_operations)
    by (apply Hexposed; discriminate).
  unfold spec_operations in Hin. simpl in Hin.
  destruct Hin as [H|[H|[H|[H|[]]]]]; discriminate H.
Qed.

(** C7, amended: the decorators declare exactly the four operations, on
    three paths: GET / for the welcome view, GET /health for the probe,
    POST /api/workouts for the add view and GET /api/workouts for the
    listing view, each routed to its view.  Flask adds HEAD wherever GET
    is declared, served by the same view, an automatic answer to OPTIONS
    on every rule, and the rule /static/<path:filename> for GET, HEAD
    and OPTIONS.  A view of the program runs for the four declared
    operations and their HEAD counterparts only, and no request line
    outside this list reaches an endpoint. *)
Theorem declared_operations_and_flask_additions :
  flat_map (fun r : string * list string * view =>
              List.map (fun m => (m, fst (fst r))) (snd (fst r))) routes
  = spec_operations
  /\ nodup string_dec
           (List.map (fun r : string * list string * view => fst (fst r))
                     routes)
     = ["/"; "/health"; "/api/workouts"]
  /\ dispatch "GET" "/" = Some Home
  /\ dispatch "GET" "/health" = Some HealthCheck
  /\ dispatch "POST" "/api/workouts" = Some AddWorkout
  /\ dispatch "GET" "/api/workouts" = Some GetWorkouts
  /\ paths = ["/static/<path:filename>"; "/"; "/health"; "/api/workouts"]
  /\ (forall (path : string) (v : view),
         dispatch "GET" path = Some v -> dispatch "HEAD" path = Some v)
  /\ (forall method path : string,
         dispatch method path <> None
         <-> In (ascii_upper method, request_path path)
                (spec_operations ++ head_operations)%list)
  /\ (forall method path : string,
         route method path <> None
         <-> In (ascii_upper method, request_path path)
                (spec_operations ++ head_operations)%list
             \/ (ascii_upper method = "OPTIONS"
                 /\ (In (request_path path) ["/"; "/health"; "/api/workouts"]
                     \/ static_path (request_path path)))
             \/ (In (ascii_upper method) ["GET"; "HEAD"]
                 /\ static_path (request_path path))).
Proof.
  split; [reflexivity|]. split; [reflexivity|].
  split; [reflexivity|]. split; [reflexivity|].
  split; [reflexivity|]. split; [reflexivity|].
  split; [reflexivity|]. split; [|split].
  - intros path v. unfold dispatch, route.
    change (ascii_upper "GET") with "GET".
    change (ascii_upper "HEAD") with "HEAD".
    destruct (match_request "GET" (request_path path)) as [[ | f | v']|] eqn:Hget;
      try discriminate.
    intros [= ->]. now rewrite (match_request_head _ _ Hget).
  - intros method path. rewrite dispatch_some. apply match_request_view.
  - intros method path. apply match_request_some.
Qed.

Lemma declared_operations_and_flask_additions_witness :
  dispatch "HEAD" "/health" = Some HealthCheck
  /\ route "OPTIONS" "/api/workouts" <> None.
Proof.
  destruct declared_operations_and_flask_additions
    as (_ & _ & _ & _ & _ & _ & _ & Hhead & _ & Hroute).
  split.
  - apply Hhead. reflexivity.
  - apply Hroute. right. left. split; [reflexivity|].
    left. simpl. auto.
Defined.

(** ** Errors do not touch the list (C8) *)

(** The text form matters: an integer of more than 4300 digits passed as
    the workout makes the f-string of the success message raise
    [ValueError] after the append, and the handler then reports
    "Duration must be a number." with the record already stored.  No
    string and no decoded JSON value is such an object. *)
Remark error_after_append_for_unprintable_workout :
  add_workout_logic (VInt (10 ^ 4300)) "5" WORKOUTS
  = (Ok err_number, [entry (VInt (10 ^ 4300)) 5]).
Proof. vm_compute. reflexivity. Qed.

(** C8: each of the four named errors (empty workout, empty duration
    text, duration text that is not an integer literal, parsed duration
    that is not positive) returns status "error" and leaves the list
    identical; and whenever a call returns status "error" the list is
    identical and the error is one of those four.  In the second part the
    workout is any object with a text form (every string, every decoded
    JSON value). *)
Theorem error_leaves_list_unchanged
        (workout : value) (d : string) (st : store) :
  (Py.truthy workout = false
   \/ d = ""
   \/ Py.int d = Raise ValueError
   \/ (exists z, Py.int d = Ok z /\ z <= 0) ->
   exists r, add_workout_logic workout d st = (Ok r, st)
             /\ status_is "error" r = true)
  /\ (forall (shown : string) (r : value) (st' : store),
         Py.str workout = Ok shown ->
         add_workout_logic workout d st = (Ok r, st') ->
         status_is "error" r = true ->
         st' = st
         /\ (Py.truthy workout = false /\ r = err_both
             \/ d = "" /\ r = err_both
             \/ Py.int d = Raise ValueError /\ r = err_number
             \/ exists z, Py.int d = Ok z /\ z <= 0 /\ r = err_positive)).
Proof.
  split.
  - intros Hcause.
    logic_cases workout d; try (eexists; split; reflexivity).
    + exfalso. destruct Hcause as [H|[H|[H|(z' & H & Hz)]]];
        try congruence.
      injection H as <-. lia.
    + exfalso. destruct Hcause as [H|[H|[H|(z' & H & Hz)]]];
        try congruence.
      injection H as <-. lia.
  - intros shown r st' Htext Hcall Hstatus.
    logic_cases workout d; injection Hcall as <- <-;
      try (split; [reflexivity|]); auto.
    + right. right. right. exists z. auto.
    + cbv in Hstatus. discriminate.
    + discriminate.
    + right. right. left. now rewrite (int_raises_ValueError _ _ Hint).
Qed.

Lemma error_leaves_list_unchanged_witness :
  (exists r,
      add_workout_logic (VStr "run") "-5" [entry (VStr "swim") 20]
      = (Ok r, [entry (VStr "swim") 20])
      /\ status_is "error" r = true)
  /\ [entry (VStr "swim") 20] = [entry (VStr "swim") 20].
Proof.
  destruct (error_leaves_list_unchanged
              (VStr "run") "-5" [entry (VStr "swim") 20])
    as [Hcause Hstatus].
  split.
  - apply Hcause. right. right. right. exists (-5). split; [reflexivity|lia].
  - apply (Hstatus "run" err_positive); reflexivity.
Defined.

(** ** The store invariant (C9) *)

(** C9: every view preserves the property that each stored record has
    exactly the fields "workout", holding a true (non-empty) value, and
    "duration", holding a strictly positive integer; hence every state
    reachable from the empty list has it. *)
Theorem store_invariant :
  (forall (v : view) (data : value) (st : store),
      store_ok st -> store_ok (snd (call v data st)))
  /\ (forall st : store, reachable st -> store_ok st).
Proof.
  assert (Hstep : forall v data st,
             store_ok st -> store_ok (snd (call v data st))).
  { intros v data st Hst.
    destruct (call_extends v data st) as (new & -> & _ & Hnew).
    apply Forall_app. now split. }
  split; [exact Hstep|].
  induction 1 as [|v data st _ IH]; [constructor | now apply Hstep].
Qed.

Lemma store_invariant_witness :
  store_ok
    (snd (call AddWorkout
               (VDict [("workout", VStr "run"); ("duration", VInt 45)])
               (snd (call AddWorkout
                          (VDict [("workout", VStr "swim");
                                  ("duration", VStr "20")])
                          WORKOUTS)))).
Proof.
  destruct store_invariant as [_ Hreach].
  apply Hreach. apply reach_call. apply reach_call. apply reach_init.
Defined.

(** ** The POST view (C10) *)

(** C10: on a JSON object, [add_workout] validates the text form of the
    "duration" field and answers 400 when [add_workout_logic] returns
    status "error" and 201 otherwise (the status is then "success").
    Hence an integer field is accepted when it is positive and the workout
    is a non-empty string, while the number 30.5 and the string "30.5" are
    rejected with "Duration must be a number."; and a missing "workout" or
    "duration" key stands for the empty string and is rejected with
    "Please enter both workout and duration.". *)
Theorem add_workout_coerces_and_maps_status
        (data workout duration : value) (st : store) :
  Py.get data "workout" (VStr "") = Ok workout ->
  Py.get data "duration" (VStr "") = Ok duration ->
  (forall ds : string,
      Py.str duration = Ok ds ->
      exists r st',
        add_workout_logic workout ds st = (Ok r, st')
        /\ add_workout data st
           = (Ok (r, if status_is "error" r then 400 else 201), st')
        /\ (status_is "error" r = false -> status_is "success" r = true))
  /\ (forall (w ds : string) (z : Z),
         workout = VStr w -> w <> "" ->
         duration = VInt z -> Py.str duration = Ok ds -> 0 < z ->
         add_workout data st
         = (Ok (reply "success" ("'" ++ w ++ "' added successfully!"), 201),
            (st ++ [entry workout z])%list))
  /\ (Py.truthy workout = true ->
      duration = VFloat "30.5" \/ duration = VStr "30.5" ->
      add_workout data st
      = (Ok (reply "error" "Duration must be a number.", 400), st))
  /\ (forall (fields : list (string * value)) (ds : string),
         data = VDict fields ->
         Py.lookup "workout" fields = None
         \/ Py.lookup "duration" fields = None ->
         Py.str duration = Ok ds ->
         add_workout data st
         = (Ok (reply "error" "Please enter both workout and duration.",
                400), st)).
Proof.
  intros Hw Hd. repeat split.
  - intros ds Hs.
    destruct (add_workout_eq _ _ _ _ st Hw Hd Hs) as (r & st' & Hcall & Heq).
    exists r, st'. repeat split; auto.
    destruct (add_workout_logic_returns workout ds st)
      as (r' & st1 & Hcall' & Hstatus).
    rewrite Hcall in Hcall'. injection Hcall' as <- <-.
    destruct Hstatus as [[? _]|[_ ?]]; congruence.
  - intros w ds z -> Hne -> Hs Hz.
    destruct (add_workout_eq _ _ _ _ st Hw Hd Hs) as (r & st' & Hcall & ->).
    rewrite add_workout_logic_eq in Hcall.
    apply truthy_str in Hne. rewrite Hne in Hcall.
    pose proof (int_of_str_int _ _ Hs) as Hint. rewrite Hint in Hcall.
    destruct (String.eqb_spec ds "") as [->|_];
      [rewrite int_empty in Hint; discriminate|].
    destruct (Z.leb_spec z 0); [lia|].
    simpl in Hcall. injection Hcall as <- <-. reflexivity.
  - intros Ht Hdur.
    assert (Hs : Py.str duration = Ok "30.5") by (destruct Hdur; now subst).
    destruct (add_workout_eq _ _ _ _ st Hw Hd Hs) as (r & st' & Hcall & ->).
    rewrite add_workout_logic_eq, Ht in Hcall. simpl in Hcall.
    injection Hcall as <- <-. reflexivity.
  - intros fields ds -> Hmiss Hs.
    destruct (add_workout_eq _ _ _ _ st Hw Hd Hs) as (r & st' & Hcall & ->).
    rewrite add_workout_logic_eq in Hcall. simpl in Hw, Hd.
    destruct Hmiss as [Hmiss|Hmiss]; rewrite Hmiss in *.
    + injection Hw as <-. simpl in Hcall.
      injection Hcall as <- <-. reflexivity.
    + injection Hd as <-. injection Hs as <-.
      rewrite orb_true_r in Hcall. injection Hcall as <- <-. reflexivity.
Qed.

Lemma add_workout_coerces_and_maps_status_witness :
  add_workout (VDict [("workout", VStr "run"); ("duration", VInt 30)])
              WORKOUTS
  = (Ok (reply "success" "'run' added successfully!", 201),
     [entry (VStr "run") 30])
  /\ add_workout (VDict [("workout", VStr "run"); ("duration", VFloat "30.5")])
                 WORKOUTS
     = (Ok (reply "error" "Duration must be a number.", 400), WORKOUTS)
  /\ add_workout (VDict [("duration", VInt 30)]) WORKOUTS
     = (Ok (reply "error" "Please enter both workout and duration.", 400),
        WORKOUTS).
Proof.
  split; [|split].
  - destruct (add_workout_coerces_and_maps_status
                (VDict [("workout", VStr "run"); ("duration", VInt 30)])
                (VStr "run") (VInt 30) WORKOUTS eq_refl eq_refl)
      as (_ & Hint & _).
    apply (Hint "run" "30" 30); try reflexivity. discriminate.
  - destruct (add_workout_coerces_and_maps_status
                (VDict [("workout", VStr "run"); ("duration", VFloat "30.5")])
                (VStr "run") (VFloat "30.5") WORKOUTS eq_refl eq_refl)
      as (_ & _ & Hfloat & _).
    apply Hfloat; [reflexivity | now left].
  - destruct (add_workout_coerces_and_maps_status
                (VDict [("duration", VInt 30)])
                (VStr "") (VInt 30) WORKOUTS eq_refl eq_refl)
      as (_ & _ & _ & Hmiss).
    apply (Hmiss [("duration", VInt 30)] "30"); [reflexivity | now left
                                                 | reflexivity].
Defined.

(** * Further properties of the code *)

(** ** Decoded JSON values always have a text form *)

Lemma int_repr_digits (z : Z) :
  (int_digits z <= Py.int_max_str_digits)%nat ->
  exists s, Py.int_repr z = Ok s.
Proof.
  intros Hlen. unfold Py.int_repr. fold (int_digits z).
  apply Nat.ltb_ge in Hlen. rewrite Hlen. eauto.
Qed.

Lemma decoded_repr (v : value) :
  decoded v = true -> exists s, Py.repr v = Ok s.
Proof.
  induction v as [ | b | z | r | s | l IHl | d IHd]
    using value_nested_ind; intros Hdec; simpl; eauto.
  - apply int_repr_digits. now apply Nat.leb_le.
  - simpl in Hdec.
    match goal with |- exists s, match ?items with _ => _ end = _ =>
      assert (Hitems : exists ts, items = Ok ts)
    end.
    { induction IHl as [|x l Hx _ IH]; [eauto|].
      simpl in Hdec. apply andb_true_iff in Hdec. destruct Hdec as [Hd1 Hd2].
      destruct (Hx Hd1) as [t ->]. destruct (IH Hd2) as [ts ->]. eauto. }
    destruct Hitems as [ts ->]. eauto.
  - simpl in Hdec.
    match goal with |- exists s, match ?items with _ => _ end = _ =>
      assert (Hitems : exists ts, items = Ok ts)
    end.
    { induction IHd as [|[k x] d Hx _ IH]; [eauto|].
      simpl in Hdec, Hx. apply andb_true_iff in Hdec.
      destruct Hdec as [Hd1 Hd2].
      destruct (Hx Hd1) as [t ->]. destruct (IH Hd2) as [ts ->]. eauto. }
    destruct Hitems as [ts ->]. eauto.
Qed.

Lemma decoded_str (v : value) :
  decoded v = true -> exists s, Py.str v = Ok s.
Proof.
  destruct v; try apply decoded_repr. simpl. eauto.
Qed.

Lemma decoded_lookup (k : string) (d : list (string * value)) (v : value) :
  forallb (fun kv => decoded (snd kv)) d = true ->
  Py.lookup k d = Some v -> decoded v = true.
Proof.
  induction d as [|[k' x] d IH]; simpl; [discriminate|].
  intros Hdec Hlook. apply andb_true_iff in Hdec. destruct Hdec as [Hx Hd].
  destruct (String.eqb k k'); [now injection Hlook as <- | now apply IH].
Qed.

Lemma decoded_get (data : value) (k : string) (v : value) :
  decoded data = true ->
  Py.get data k (VStr "") = Ok v -> decoded v = true.
Proof.
  destruct data; try discriminate. simpl. intros Hdec Hget.
  destruct (Py.lookup k fields) as [x|] eqn:Hlook.
  - injection Hget as <-. eapply decoded_lookup; eauto.
  - now injection Hget as <-.
Qed.

(** ** What POST /api/workouts can answer *)

(** The ways [add_workout] can end on a decoded body. *)
Lemma add_workout_cases (data : value) (st : store) :
  decoded data = true ->
  (add_workout data st = (Raise AttributeError, st)
   /\ forall fields, data <> VDict fields)
  \/ (exists r,
         add_workout data st = (Ok (r, 400), st)
         /\ (r = err_both \/ r = err_number \/ r = err_positive))
  \/ (exists workout duration ds text z,
         Py.get data "workout" (VStr "") = Ok workout
         /\ Py.get data "duration" (VStr "") = Ok duration
         /\ Py.str duration = Ok ds
         /\ Py.int ds = Ok z /\ 0 < z
         /\ Py.truthy workout = true
         /\ Py.str workout = Ok text
         /\ add_workout data st
            = (Ok (added text, 201), (st ++ [entry workout z])%list)).
Proof.
  intros Hdec.
  destruct (Py.get data "workout" (VStr "")) as [workout|e] eqn:Hw.
  2:{ left. destruct data; try discriminate;
        (split; [reflexivity | discriminate]). }
  destruct (Py.get data "duration" (VStr "")) as [duration|e] eqn:Hd.
  2:{ destruct data; discriminate. }
  destruct (decoded_str _ (decoded_get _ _ _ Hdec Hd)) as [ds Hs].
  destruct (decoded_str _ (decoded_get _ _ _ Hdec Hw)) as [shown Ht].
  right.
  destruct (add_workout_eq _ _ _ _ st Hw Hd Hs) as (r & st' & Hcall & ->).
  revert Hcall. logic_cases workout ds; intros Hcall;
    injection Hcall as <- <-;
    try (left; eexists; split; [reflexivity | auto]; fail).
  - right. exists workout, duration, ds, text, z. repeat split; auto.
  - discriminate.
Qed.

(** For every decoded body the POST view ends in one of three ways: the body is not a JSON object and [AttributeError] escapes with
    the list untouched; or the answer is 400 with one of the three error
    results and the list untouched; or the answer is 201 and the list has
    gained the record made of the "workout" field as it came and of the
    integer read from the text of the "duration" field. *)
Theorem post_outcomes (data : value) (st : store) :
  decoded data = true ->
  (add_workout data st = (Raise AttributeError, st)
   /\ forall fields, data <> VDict fields)
  \/ (exists r,
         add_workout data st = (Ok (r, 400), st)
         /\ (r = err_both \/ r = err_number \/ r = err_positive))
  \/ (exists workout duration ds text z,
         Py.get data "workout" (VStr "") = Ok workout
         /\ Py.get data "duration" (VStr "") = Ok duration
         /\ Py.str duration = Ok ds
         /\ Py.int ds = Ok z /\ 0 < z
         /\ Py.truthy workout = true
         /\ Py.str workout = Ok text
         /\ add_workout data st
            = (Ok (added text, 201), (st ++ [entry workout z])%list)).
Proof. exact (add_workout_cases data st). Qed.

Lemma post_outcomes_witness :
  (add_workout (VDict [("workout", VInt 5); ("duration", VStr " 7 ")])
               WORKOUTS
   = (Raise AttributeError, WORKOUTS)
   /\ forall fields,
       VDict [("workout", VInt 5); ("duration", VStr " 7 ")]
       <> VDict fields)
  \/ (exists r,
         add_workout (VDict [("workout", VInt 5); ("duration", VStr " 7 ")])
                     WORKOUTS
         = (Ok (r, 400), WORKOUTS)
         /\ (r = err_both \/ r = err_number \/ r = err_positive))
  \/ (exists workout duration ds text z,
         Py.get (VDict [("workout", VInt 5); ("duration", VStr " 7 ")])
                "workout" (VStr "") = Ok workout
         /\ Py.get (VDict [("workout", VInt 5); ("duration", VStr " 7 ")])
                   "duration" (VStr "") = Ok duration
         /\ Py.str duration = Ok ds
         /\ Py.int ds = Ok z /\ 0 < z
         /\ Py.truthy workout = true
         /\ Py.str workout = Ok text
         /\ add_workout (VDict [("workout", VInt 5);
                                ("duration", VStr " 7 ")]) WORKOUTS
            = (Ok (added text, 201), (WORKOUTS ++ [entry workout z])%list)).
Proof.
  apply (post_outcomes
           (VDict [("workout", VInt 5); ("duration", VStr " 7 ")]) WORKOUTS).
  reflexivity.
Defined.

(** ** Acceptance for any workout object *)

(** A workout of any JSON type is accepted exactly when it is true in a
    condition (not null, false, 0, 0.0, the empty string, list or object),
    the duration text parses as a strictly positive integer and the
    workout has a text form for the message; the record keeps the workout
    as it was given, not its text. *)
Theorem accepts_any_workout_iff
        (workout : value) (d : string) (st : store) :
  accepts workout d st
  <-> Py.truthy workout = true
      /\ parses_positive d
      /\ exists text, Py.str workout = Ok text.
Proof.
  split.
  - intros (r & z' & Hcall & Hstatus).
    logic_cases workout d; injection Hcall as <- Hst;
      try (now apply app_one_neq in Hst);
      try (cbv in Hstatus; discriminate).
    repeat split; [exists z; auto | eauto].
  - intros (Hw & (z & Hz & Hpos) & (text & Ht)).
    exists (added text), z. split; [|reflexivity].
    rewrite add_workout_logic_eq, Hw, Hz, Ht. simpl.
    destruct (String.eqb_spec d "") as [->|_];
      [rewrite int_empty in Hz; discriminate|].
    destruct (Z.leb_spec z 0); [lia|reflexivity].
Qed.

Lemma accepts_any_workout_iff_witness :
  accepts (VList [VStr "run"; VStr "swim"]) "1_000" WORKOUTS.
Proof.
  apply (accepts_any_workout_iff
           (VList [VStr "run"; VStr "swim"]) "1_000" WORKOUTS).
  split; [reflexivity|]. split.
  - exists 1000. split; [reflexivity|lia].
  - eexists. reflexivity.
Defined.

(** ** The list is never consulted when adding *)

(** The result of [add_workout_logic] and the record it appends do not
    depend on what the list holds: there is no capacity limit and no
    check for duplicates, so a request accepted once is accepted again and
    stores a second, equal record. *)
Theorem add_ignores_list_contents
        (workout : value) (d : string) (st1 st2 : store) :
  fst (add_workout_logic workout d st1) = fst (add_workout_logic workout d st2)
  /\ (exists new,
         snd (add_workout_logic workout d st1) = (st1 ++ new)%list
         /\ snd (add_workout_logic workout d st2) = (st2 ++ new)%list)
  /\ (forall r z,
         add_workout_logic workout d st1
         = (Ok r, (st1 ++ [entry workout z])%list) ->
         add_workout_logic workout d (st1 ++ [entry workout z])%list
         = (Ok r, (st1 ++ [entry workout z; entry workout z])%list)).
Proof.
  split; [|split].
  - logic_cases workout d; reflexivity.
  - logic_cases workout d; simpl;
      try (exists []; now rewrite !app_nil_r);
      exists [entry workout z]; auto.
  - intros r z' Hcall. revert Hcall.
    logic_cases workout d; intros Hcall; injection Hcall as <- Hst;
      try (now apply app_one_neq in Hst);
      apply app_inv_head in Hst; injection Hst as <-;
      now rewrite <- app_assoc.
Qed.

Lemma add_ignores_list_contents_witness :
  add_workout_logic (VStr "run") "30" [entry (VStr "run") 30]
  = (Ok (added "run"), [entry (VStr "run") 30; entry (VStr "run") 30]).
Proof.
  destruct (add_ignores_list_contents (VStr "run") "30" WORKOUTS WORKOUTS)
    as (_ & _ & Htwice).
  apply (Htwice (added "run") 30). reflexivity.
Defined.

(** ** The duration counts only through the integer it denotes *)

(** Two non-empty duration texts on which [int] agrees give the same
    result and the same list. *)
Lemma logic_depends_on_int (workout : value) (d1 d2 : string) (st : store) :
  d1 <> "" -> d2 <> "" -> Py.int d1 = Py.int d2 ->
  add_workout_logic workout d1 st = add_workout_logic workout d2 st.
Proof.
  intros H1 H2 Hint. rewrite !add_workout_logic_eq, Hint.
  apply String.eqb_neq in H1, H2. now rewrite H1, H2.
Qed.

(** A "duration" sent as a JSON number and one sent as a JSON string are
    treated alike: if the string is any non-empty text that [int] reads as
    the number (spaces, a plus sign, leading zeros or underscores
    included), the two requests get the same answer and leave the same
    list.  Whichever of the two is answered 201, the record it stores
    holds the integer itself as its duration, not the text; and both are
    answered 201 when the integer is positive and the workout passes the
    presence check. *)
Theorem number_and_text_durations_agree
        (data1 data2 workout : value) (z : Z) (ds : string) (st : store) :
  Py.get data1 "workout" (VStr "") = Ok workout ->
  Py.get data2 "workout" (VStr "") = Ok workout ->
  Py.get data1 "duration" (VStr "") = Ok (VInt z) ->
  Py.get data2 "duration" (VStr "") = Ok (VStr ds) ->
  decoded (VInt z) = true ->
  ds <> "" -> Py.int ds = Ok z ->
  add_workout data1 st = add_workout data2 st
  /\ (forall (body : value) (st' : store),
         add_workout data1 st = (Ok (body, 201), st')
         \/ add_workout data2 st = (Ok (body, 201), st') ->
         st' = (st ++ [VDict [("workout", workout);
                              ("duration", VInt z)]])%list)
  /\ (0 < z -> Py.truthy workout = true -> decoded workout = true ->
      exists shown,
        add_workout data2 st
        = (Ok (added shown, 201), (st ++ [entry workout z])%list)).
Proof.
  intros Hw1 Hw2 Hd1 Hd2 Hdec Hne Hint.
  destruct (decoded_str _ Hdec) as [zs Hzs].
  destruct (add_workout_eq _ _ _ _ st Hw1 Hd1 Hzs) as (r1 & s1 & Hc1 & H1).
  destruct (add_workout_eq data2 workout (VStr ds) ds st Hw2 Hd2 eq_refl)
    as (r2 & s2 & Hc2 & H2).
  assert (Hzne : zs <> "").
  { intros ->. apply int_of_str_int in Hzs. rewrite int_empty in Hzs.
    discriminate. }
  assert (Hsame : add_workout data1 st = add_workout data2 st).
  { rewrite (logic_depends_on_int workout zs ds st Hzne Hne) in Hc1.
    - rewrite Hc1 in Hc2. injection Hc2 as <- <-. now rewrite H1, H2.
    - now rewrite (int_of_str_int _ _ Hzs). }
  split; [exact Hsame|]. split.
  - intros body st' Hcreated.
    assert (H201 : add_workout data2 st = (Ok (body, 201), st'))
      by (destruct Hcreated as [H|H]; [now rewrite <- Hsame | exact H]).
    rewrite H2 in H201.
    destruct (add_workout_logic_returns workout ds st)
      as (r & s & Hcall & Hstatus).
    rewrite Hc2 in Hcall. injection Hcall as <- <-.
    destruct Hstatus as [[Hsucc _]|[_ Herr]].
    + injection H201 as _ _ <-.
      destruct (logic_success_inv _ _ _ _ _ Hc2 Hsucc) as (z' & Hz' & _ & ->).
      rewrite Hint in Hz'. now injection Hz' as <-.
    + rewrite Herr in H201. discriminate.
  - intros Hz Ht Hdw.
    destruct (decoded_str _ Hdw) as [shown Hshown].
    exists shown. rewrite H2.
    apply String.eqb_neq in Hne.
    rewrite add_workout_logic_eq, Ht, Hne, Hint, Hshown in Hc2.
    simpl in Hc2. destruct (Z.leb_spec z 0); [lia|].
    now injection Hc2 as <- <-.
Qed.

Lemma number_and_text_durations_agree_witness :
  add_workout (VDict [("workout", VStr "run"); ("duration", VInt 30)])
              WORKOUTS
  = add_workout (VDict [("duration", VStr " +0_30 "); ("workout", VStr "run")])
                WORKOUTS
  /\ exists shown,
       add_workout (VDict [("duration", VStr " +0_30 ");
                           ("workout", VStr "run")]) WORKOUTS
       = (Ok (added shown, 201), (WORKOUTS ++ [entry (VStr "run") 30])%list).
Proof.
  destruct (number_and_text_durations_agree
              (VDict [("workout", VStr "run"); ("duration", VInt 30)])
              (VDict [("duration", VStr " +0_30 "); ("workout", VStr "run")])
              (VStr "run") 30 " +0_30 " WORKOUTS)
    as (Hsame & _ & Hstored); try reflexivity; try discriminate.
  split; [exact Hsame|].
  apply Hstored; [lia | reflexivity | reflexivity].
Defined.

(** ** Durations of the other JSON types *)

(** The text of a list or an object opens with a bracket, which [int]
    refuses. *)
Lemma int_of_bracket (s : string) :
  Py.int (String "[" s) = Raise ValueError
  /\ Py.int (String "{" s) = Raise ValueError.
Proof. split; reflexivity. Qed.

Lemma int_of_str_container (v : value) (s : string) :
  (exists l, v = VList l) \/ (exists d, v = VDict d) ->
  Py.str v = Ok s -> Py.int s = Raise ValueError.
Proof.
  intros [[l ->]|[d ->]]; simpl.
  - match goal with |- match ?items with _ => _ end = _ -> _ =>
      destruct items as [ts|e] end; [|discriminate].
    intros [= <-]. apply int_of_bracket.
  - match goal with |- match ?items with _ => _ end = _ -> _ =>
      destruct items as [ts|e] end; [|discriminate].
    intros [= <-]. apply int_of_bracket.
Qed.

(** With a workout that passes the presence check, a "duration" that is
    null, true, false, a list or an object is answered 400 "Duration must
    be a number." and nothing is stored: [true] is not read as 1, and a
    one-element list is not read as its element. *)
Theorem non_numeric_durations_are_rejected
        (data workout duration : value) (st : store) :
  Py.get data "workout" (VStr "") = Ok workout ->
  Py.get data "duration" (VStr "") = Ok duration ->
  Py.truthy workout = true ->
  decoded duration = true ->
  duration = VNone \/ (exists b, duration = VBool b)
  \/ (exists l, duration = VList l) \/ (exists d, duration = VDict d) ->
  add_workout data st = (Ok (err_number, 400), st).
Proof.
  intros Hw Hd Ht Hdec Hkind.
  destruct (decoded_str _ Hdec) as [ds Hs].
  destruct (add_workout_eq _ _ _ _ st Hw Hd Hs) as (r & st' & Hcall & ->).
  assert (Hint : Py.int ds = Raise ValueError /\ ds <> "").
  { destruct Hkind as [->|[[b ->]|Hcont]].
    - injection Hs as <-. split; [reflexivity|discriminate].
    - destruct b; injection Hs as <-; split; (reflexivity || discriminate).
    - split; [now apply (int_of_str_container duration)|].
      intros ->. destruct Hcont as [[l ->]|[d ->]]; simpl in Hs;
        match type of Hs with match ?items with _ => _ end = _ =>
          destruct items end; discriminate. }
  destruct Hint as [Hint Hne]. apply String.eqb_neq in Hne.
  rewrite add_workout_logic_eq, Ht, Hne, Hint in Hcall. simpl in Hcall.
  now injection Hcall as <- <-.
Qed.

Lemma non_numeric_durations_are_rejected_witness :
  add_workout (VDict [("workout", VStr "run"); ("duration", VList [VInt 30])])
              WORKOUTS
  = (Ok (err_number, 400), WORKOUTS).
Proof.
  apply (non_numeric_durations_are_rejected
           (VDict [("workout", VStr "run"); ("duration", VList [VInt 30])])
           (VStr "run") (VList [VInt 30]) WORKOUTS);
    try reflexivity.
  right. right. left. eexists. reflexivity.
Defined.

(** With a workout that passes the presence check, an integer "duration"
    that is zero or negative is answered 400 "Duration must be a positive
    number." and nothing is stored. *)
Theorem non_positive_durations_are_rejected
        (data workout : value) (z : Z) (st : store) :
  Py.get data "workout" (VStr "") = Ok workout ->
  Py.get data "duration" (VStr "") = Ok (VInt z) ->
  Py.truthy workout = true ->
  decoded (VInt z) = true ->
  z <= 0 ->
  add_workout data st = (Ok (err_positive, 400), st).
Proof.
  intros Hw Hd Ht Hdec Hz.
  destruct (decoded_str _ Hdec) as [ds Hs].
  destruct (add_workout_eq _ _ _ _ st Hw Hd Hs) as (r & st' & Hcall & ->).
  pose proof (int_of_str_int _ _ Hs) as Hint.
  assert (Hne : ds <> "").
  { intros ->. rewrite int_empty in Hint. discriminate. }
  apply String.eqb_neq in Hne.
  rewrite add_workout_logic_eq, Ht, Hne, Hint in Hcall. simpl in Hcall.
  destruct (Z.leb_spec z 0); [|lia].
  now injection Hcall as <- <-.
Qed.

Lemma non_positive_durations_are_rejected_witness :
  add_workout (VDict [("workout", VStr "run"); ("duration", VInt 0)])
              [entry (VStr "swim") 20]
  = (Ok (err_positive, 400), [entry (VStr "swim") 20]).
Proof.
  apply (non_positive_durations_are_rejected
           (VDict [("workout", VStr "run"); ("duration", VInt 0)])
           (VStr "run") 0 [entry (VStr "swim") 20]);
    reflexivity || lia.
Defined.

(** ** White space around the duration *)

Lemma space_is_plain (c : ascii) :
  Py.is_space c = true ->
  Ascii.eqb c "_" = false /\ Py.digit_value c = None.
Proof.
  destruct c as [[] [] [] [] [] [] [] []]; intros H;
    try (cbv in H; discriminate); split; reflexivity.
Qed.

Lemma skip_spaces_snoc (s : string) (c : ascii) :
  Py.is_space c = true ->
  Py.skip_spaces (s ++ String c "")
  = match Py.skip_spaces s with
    | EmptyString => ""
    | String a r => String a r ++ String c ""
    end.
Proof.
  intros Hc. induction s as [|a r IH]; simpl.
  - now rewrite Hc.
  - destruct (Py.is_space a); [exact IH | reflexivity].
Qed.

Lemma scan_digits_snoc (s : string) (c : ascii) :
  Py.is_space c = true ->
  forall (prev_us : bool) (acc : Z) (n : nat),
    Py.scan_digits (s ++ String c "") prev_us acc n
    = match Py.scan_digits s prev_us acc n with
      | Some (z, k, rest) => Some (z, k, rest ++ String c "")
      | None => None
      end.
Proof.
  intros Hc. destruct (space_is_plain c Hc) as [Hus Hdig].
  induction s as [|a r IH]; intros prev_us acc n; simpl.
  - rewrite Hus, Hdig. now destruct prev_us.
  - destruct (Ascii.eqb a "_").
    + destruct prev_us; [reflexivity | apply IH].
    + destruct (Py.digit_value a); [apply IH | now destruct prev_us].
Qed.

(** One white-space character in front or behind does not change what
    [int] returns. *)
Lemma int_space_cons (c : ascii) (s : string) :
  Py.is_space c = true -> Py.int (String c s) = Py.int s.
Proof. intros Hc. unfold Py.int. simpl. now rewrite Hc. Qed.

Lemma int_space_snoc (c : ascii) (s : string) :
  Py.is_space c = true -> Py.int (s ++ String c "") = Py.int s.
Proof.
  intros Hc. destruct (space_is_plain c Hc) as [Hus _].
  unfold Py.int. rewrite (skip_spaces_snoc s c Hc).
  destruct (Py.skip_spaces s) as [|a r]; [reflexivity|].
  assert (Hsplit : Py.split_sign (String a r ++ String c "")
                   = (fst (Py.split_sign (String a r)),
                      snd (Py.split_sign (String a r)) ++ String c "")).
  { simpl. destruct (Ascii.eqb a "+"); [reflexivity|].
    destruct (Ascii.eqb a "-"); reflexivity. }
  rewrite Hsplit.
  destruct (Py.split_sign (String a r)) as [sign body]. simpl fst. simpl snd.
  assert (Hstart : Py.starts_with "_" (body ++ String c "")
                   = Py.starts_with "_" body).
  { destruct body; simpl; [exact Hus | reflexivity]. }
  rewrite Hstart, (scan_digits_snoc body c Hc).
  destruct (Py.starts_with "_" body); [reflexivity|].
  destruct (Py.scan_digits body false 0 0) as [[[z k] rest]|]; [|reflexivity].
  destruct (Py.int_max_str_digits <? k)%nat; [reflexivity|].
  destruct (k =? 0)%nat; [reflexivity|].
  rewrite (skip_spaces_snoc rest c Hc).
  now destruct (Py.skip_spaces rest).
Qed.

Lemma append_assoc_one (s t : string) (c : ascii) :
  s ++ String c t = (s ++ String c "") ++ t.
Proof. induction s as [|a s IH]; simpl; [reflexivity | now rewrite IH]. Qed.

Lemma int_strip (pre d post : string) :
  blank pre = true -> blank post = true ->
  Py.int (pre ++ d ++ post) = Py.int d.
Proof.
  intros Hpre Hpost.
  induction pre as [|c pre IH]; simpl in *.
  - clear Hpre. revert d.
    induction post as [|c post IH]; intros d.
    + assert (Hd : d ++ "" = d)
        by (induction d as [|a d IHd]; simpl; [reflexivity | now rewrite IHd]).
      now rewrite Hd.
    + simpl in Hpost. apply andb_true_iff in Hpost.
      destruct Hpost as [Hc Hpost].
      rewrite append_assoc_one, (IH Hpost). now apply int_space_snoc.
  - apply andb_true_iff in Hpre. destruct Hpre as [Hc Hpre].
    rewrite (int_space_cons _ _ Hc). now apply IH.
Qed.

Lemma int_blank (s : string) :
  blank s = true -> Py.int s = Raise ValueError.
Proof.
  intros Hs. unfold Py.int.
  assert (Hskip : Py.skip_spaces s = "").
  { induction s as [|c s IH]; simpl in *; [reflexivity|].
    apply andb_true_iff in Hs. destruct Hs as [-> Hs]. now apply IH. }
  now rewrite Hskip.
Qed.

Lemma append_nonempty (pre d post : string) :
  d <> "" -> pre ++ d ++ post <> "".
Proof.
  intros Hd H. destruct pre; [|discriminate].
  destruct d; [congruence | discriminate].
Qed.

(** White space before and after a non-empty duration text changes
    neither the result nor the list.  A duration made of white space only
    is not caught by the presence check: it reaches [int] and is answered
    "Duration must be a number.", where the empty text is answered
    "Please enter both workout and duration.". *)
Theorem duration_white_space_is_ignored
        (workout : value) (pre d post : string) (st : store) :
  blank pre = true -> blank post = true ->
  (d <> "" ->
   add_workout_logic workout (pre ++ d ++ post) st
   = add_workout_logic workout d st)
  /\ (Py.truthy workout = true -> pre <> "" ->
      add_workout_logic workout pre st = (Ok err_number, st)
      /\ add_workout_logic workout "" st = (Ok err_both, st)).
Proof.
  intros Hpre Hpost. split.
  - intros Hd. apply logic_depends_on_int;
      [now apply append_nonempty | exact Hd | now apply int_strip].
  - intros Ht Hne. split.
    + apply String.eqb_neq in Hne.
      now rewrite add_workout_logic_eq, Ht, Hne, (int_blank pre Hpre).
    + now rewrite add_workout_logic_eq, Ht.
Qed.

Lemma duration_white_space_is_ignored_witness :
  add_workout_logic (VStr "run") (" " ++ "30" ++ String "010" "") WORKOUTS
  = add_workout_logic (VStr "run") "30" WORKOUTS.
Proof.
  destruct (duration_white_space_is_ignored
              (VStr "run") " " "30" (String "010" "") WORKOUTS
              eq_refl eq_refl) as [Hsame _].
  apply Hsame. discriminate.
Defined.

(** ** The port of the start-up block *)

(** The start-up block takes the port from the environment: 5000 when
    PORT is unset; the integer itself when PORT holds its decimal text,
    whatever its sign or size, since no range is checked here; and when
    PORT is set but empty or blank there is no fallback to 5000: [int]
    raises [ValueError], the only exception the block can raise. *)
Theorem port_from_environment (environ : list (string * string)) :
  (environ_get environ "PORT" = None -> port environ = Ok 5000)
  /\ (forall (z : Z) (s : string),
         environ_get environ "PORT" = Some s ->
         Py.str (VInt z) = Ok s ->
         port environ = Ok z)
  /\ (forall s : string,
         environ_get environ "PORT" = Some s ->
         blank s = true ->
         port environ = Raise ValueError)
  /\ (forall e : exn, port environ = Raise e -> e = ValueError).
Proof.
  unfold port. repeat split.
  - now intros ->.
  - intros z s -> Hs. now apply int_of_str_int.
  - intros s -> Hs. now apply int_blank.
  - intros e. destruct (environ_get environ "PORT"); simpl.
    + apply int_raises_ValueError.
    + discriminate.
Qed.

Lemma port_from_environment_witness :
  port [("HOME", "/root"); ("PORT", "8080")] = Ok 8080
  /\ port [("PORT", "")] = Raise ValueError.
Proof.
  split.
  - destruct (port_from_environment [("HOME", "/root"); ("PORT", "8080")])
      as (_ & Hset & _).
    apply (Hset 8080 "8080"); reflexivity.
  - destruct (port_from_environment [("PORT", "")]) as (_ & _ & Hblank & _).
    apply (Hblank ""); reflexivity.
Defined.

(** ** Sessions *)

(** A view that only reads answers with a response and leaves the list as
    it is, whatever the body. *)
Lemma read_only_call (v : view) (data : value) (st : store) :
  read_only v = true ->
  exists resp, call v data st = (Ok resp, st) /\ snd resp = 200.
Proof.
  destruct v; try discriminate; intros _; eexists; split; reflexivity.
Qed.

(** One request on a decoded body: answered 201 with one record appended,
    or answered otherwise with the list untouched. *)
Lemma call_created (v : view) (data : value) (st : store) :
  decoded data = true ->
  (created (fst (call v data st)) = true
   /\ exists e, valid_entry e = true
                /\ snd (call v data st) = (st ++ [e])%list)
  \/ (created (fst (call v data st)) = false
      /\ snd (call v data st) = st).
Proof.
  intros Hdec. destruct v; try (right; split; reflexivity).
  simpl call.
  destruct (add_workout_cases data st Hdec)
    as [[-> _] | [(r & -> & _) | (w & du & ds & text & z & _ & _ & _ & _
                                    & Hz & Ht & _ & ->)]].
  - right. split; reflexivity.
  - right. split; reflexivity.
  - left. split; [reflexivity|].
    exists (entry w z). split; [now apply valid_entry_entry | reflexivity].
Qed.

(** The list after a session: the list before, followed by one record for
    each request answered 201. *)
Lemma serve_all_grows (reqs : list (view * value)) :
  forall st : store,
    Forall (fun rq => decoded (snd rq) = true) reqs ->
    exists new,
      snd (serve_all reqs st) = (st ++ new)%list
      /\ List.length new
         = List.length (filter created (fst (serve_all reqs st)))
      /\ Forall (fun e => valid_entry e = true) new.
Proof.
  induction reqs as [|[v data] reqs IH]; intros st Hdec.
  - exists []. simpl. rewrite app_nil_r. auto.
  - inversion Hdec as [|rq rqs Hd Hrest]; subst. simpl in Hd.
    simpl serve_all.
    destruct (call v data st) as [out st1] eqn:Hcall.
    destruct (IH st1 Hrest) as (new & Hnew & Hlen & Hok).
    destruct (serve_all reqs st1) as [outs st2]. simpl in *. subst st2.
    pose proof (call_created v data st Hd) as Hstep.
    rewrite Hcall in Hstep. simpl in Hstep.
    destruct Hstep as [[Hc (e & He & ->)] | [Hc ->]]; rewrite Hc.
    + exists (e :: new). rewrite <- app_assoc. simpl.
      repeat split; auto.
    + exists new. auto.
Qed.

(** After any session of requests with decoded bodies, the list is the
    list before the session followed by one valid record per request that
    was answered 201, and nothing else: requests answered 400, requests
    that raised and GET requests add nothing.  The listing served next
    reports exactly that count and those records, the old ones first. *)
Theorem listing_after_session
        (reqs : list (view * value)) (st : store) (data : value) :
  Forall (fun rq => decoded (snd rq) = true) reqs ->
  let outs := fst (serve_all reqs st) in
  let st' := snd (serve_all reqs st) in
  exists new,
    st' = (st ++ new)%list
    /\ List.length new = List.length (filter created outs)
    /\ Forall (fun e => valid_entry e = true) new
    /\ call GetWorkouts data st'
       = (Ok (VDict [("total_workouts",
                      VInt (Z.of_nat (List.length st)
                            + Z.of_nat (List.length (filter created outs))));
                     ("workouts", VList (st ++ new))], 200), st').
Proof.
  intros Hdec outs st'.
  destruct (serve_all_grows reqs st Hdec) as (new & Hnew & Hlen & Hok).
  exists new. repeat split; auto.
  subst outs st'. rewrite Hnew. simpl. unfold get_workouts, bind, read, ret.
  rewrite length_app, Hlen, Nat2Z.inj_add. reflexivity.
Qed.

Lemma listing_after_session_witness :
  exists new,
    snd (serve_all [(AddWorkout, VDict [("workout", VStr "run");
                                        ("duration", VInt 30)]);
                    (AddWorkout, VDict [("workout", VStr "swim");
                                        ("duration", VFloat "30.5")]);
                    (GetWorkouts, VNone);
                    (AddWorkout, VList [])] WORKOUTS)
    = (WORKOUTS ++ new)%list
    /\ List.length new = 1%nat.
Proof.
  destruct (listing_after_session
              [(AddWorkout, VDict [("workout", VStr "run");
                                   ("duration", VInt 30)]);
               (AddWorkout, VDict [("workout", VStr "swim");
                                   ("duration", VFloat "30.5")]);
               (GetWorkouts, VNone);
               (AddWorkout, VList [])] WORKOUTS VNone)
    as (new & Hnew & Hlen & _).
  - repeat constructor.
  - exists new. split; [exact Hnew | exact Hlen].
Defined.

(** The views that only read (welcome, probe, listing) answer 200 on any
    body and in any state, never raise and leave the list untouched; the
    welcome text carries the version.  Hence the list a session ends with
    is the one its POST requests alone would have produced. *)
Theorem read_only_requests_leave_no_trace
        (reqs : list (view * value)) (st : store) :
  snd (serve_all reqs st)
  = snd (serve_all (filter (fun rq => negb (read_only (fst rq))) reqs) st)
  /\ (forall (v : view) (data : value),
         read_only v = true ->
         exists resp, call v data st = (Ok resp, st) /\ snd resp = 200)
  /\ (forall data : value,
         call Home data st
         = (Ok (VStr "Welcome to ACEest Fitness & Gym! Application Version: 1.0",
                200), st)).
Proof.
  split; [|split].
  - revert st. induction reqs as [|[v data] reqs IH]; intros st;
      [reflexivity|].
    assert (Hsnd : forall (out : result response)
                          (x : list (result response) * store),
               snd (let '(outs, st2) := x in (out :: outs, st2)) = snd x)
      by (intros out [outs st2]; reflexivity).
    destruct (read_only v) eqn:Hro.
    + destruct (read_only_call v data st Hro) as (resp & Hcall & _).
      transitivity (snd (serve_all reqs st)).
      * simpl serve_all. rewrite Hcall. apply Hsnd.
      * rewrite IH. simpl filter. now rewrite Hro.
    + simpl filter. rewrite Hro. simpl serve_all.
      destruct (call v data st) as [out st1]. rewrite !Hsnd. apply IH.
  - intros v data. apply read_only_call.
  - reflexivity.
Qed.

Lemma read_only_requests_leave_no_trace_witness :
  exists resp,
    call GetWorkouts (VStr "ignored") [entry (VStr "swim") 20]
    = (Ok resp, [entry (VStr "swim") 20])
    /\ snd resp = 200.
Proof.
  destruct (read_only_requests_leave_no_trace [] [entry (VStr "swim") 20])
    as (_ & Hread & _).
  apply Hread. reflexivity.
Defined.
